(** * Calendar booking agent: availability engine and booking operation

    A shallow embedding of [calendar_service.py] (class [CalendarService]) and
    of the four tool functions of [agent.py] ([BookingAgent._create_tools]).

    Conventions of the embedding.
    - A naive [datetime] is the number of microseconds elapsed since
      0001-01-01T00:00:00 on the wall clock, a [Z]; the representable
      range is [0 .. MAXTICKS] (year 1 to year 9999) and arithmetic that leaves
      it raises [OverflowError], as in Python.
    - A function that can raise returns a [result]; a method that talks to the
      calendar service threads the [World] through and returns
      [result A * World].  [try ... except Exception] is [try_except].
    - The parsers of the Python library ([datetime.strptime],
      [datetime.fromisoformat], [int]) are parameters, bundled in the class
      [PyLib]; every theorem holds for whatever they accept.
    - The Google Calendar service is the record [Backend]: the events it
      holds, the requests it has received, and when it refuses a request.
    - [print] to standard output is not modelled. *)

From Stdlib Require Import ZArith List String Ascii Bool Lia Sorted DecimalString.
From Equations Require Import Equations.
From Equations.Prop Require Import Logic.
Import ListNotations.
Local Open Scope string_scope.
Local Open Scope Z_scope.

(** ** Exceptions and fallible computations *)

(** The subclasses of [Exception] that the modelled code can meet; the
    argument is what [str(e)] returns. *)
Inductive exn : Type :=
| ValueError (msg : string)
| KeyError (msg : string)
| AttributeError (msg : string)
| OverflowError (msg : string)
| HttpError (msg : string).

Definition str (e : exn) : string :=
  match e with
  | ValueError m | KeyError m | AttributeError m
  | OverflowError m | HttpError m => m
  end.

Inductive result (A : Type) : Type :=
| Ok (a : A)
| Raise (e : exn).
Arguments Ok {A} a.
Arguments Raise {A} e.

Definition rbind {A B} (r : result A) (k : A -> result B) : result B :=
  match r with
  | Ok a => k a
  | Raise e => Raise e
  end.

Declare Scope result_scope.
Delimit Scope result_scope with result.
Notation "x <- r ;; k" := (rbind r (fun x => k))
  (at level 61, r at next level, right associativity) : result_scope.

(** ** Naive datetimes and timedeltas *)

Definition MINUTE : Z := 60000000.
Definition HOUR : Z := 3600000000.
Definition DAY : Z := 86400000000.

(** [datetime.max] is 9999-12-31T23:59:59.999999; day 3652059 is its
    ordinal. *)
Definition MAXTICKS : Z := 3652059 * DAY - 1.

(** A [datetime] as [fromisoformat] can return it: the wall-clock reading
    and, when the string carries one, the UTC offset in microseconds. *)
Record datetime : Type := mkDatetime {
  wall : Z;
  tzinfo : option Z
}.

Definition naive (t : Z) : datetime := mkDatetime t None.

(** [timedelta(minutes=m)]: a timedelta is kept in microseconds; the
    constructor refuses more than 999999999 days in either direction. *)
Definition timedelta (minutes : Z) : result Z :=
  if (-999999999 <=? minutes / 1440) && (minutes / 1440 <=? 999999999)
  then Ok (minutes * MINUTE)
  else Raise (OverflowError "days; must have magnitude <= 999999999").

(** [t + delta] on naive datetimes. *)
Definition dt_add (t delta : Z) : result Z :=
  if (0 <=? t + delta) && (t + delta <=? MAXTICKS)
  then Ok (t + delta)
  else Raise (OverflowError "date value out of range").

(** [d + delta] keeps the tzinfo of [d]. *)
Definition datetime_add (d : datetime) (delta : Z) : result datetime :=
  (w <- dt_add (wall d) delta ;; Ok (mkDatetime w (tzinfo d)))%result.

(** [d.replace(tzinfo=None)]. *)
Definition replace_tzinfo_None (d : datetime) : Z := wall d.

(** [t.replace(hour=h, minute=m, second=s, microsecond=us)]: the date is
    kept, the time of day is set. *)
Definition replace_time (t h m s us : Z) : Z :=
  (t / DAY) * DAY + h * HOUR + m * MINUTE + s * 1000000 + us.

(** ** Formatting *)

Definition digit (d : Z) : ascii := ascii_of_nat (48 + Z.to_nat (d mod 10)).

Fixpoint zero_padded (width : nat) (n : Z) : string :=
  match width with
  | O => ""
  | S w => zero_padded w (n / 10) ++ String (digit n) ""
  end.

Definition is_leap (y : Z) : bool :=
  (y mod 4 =? 0) && (negb (y mod 100 =? 0) || (y mod 400 =? 0)).

Definition days_in_month (y m : Z) : Z :=
  if m =? 2 then (if is_leap y then 29 else 28)
  else if (m =? 4) || (m =? 6) || (m =? 9) || (m =? 11) then 30
  else 31.

(** Days from 0001-01-01 to the first of January of year [y]. *)
Definition days_before_year (y : Z) : Z :=
  (y - 1) * 365 + (y - 1) / 4 - (y - 1) / 100 + (y - 1) / 400.

(** Days from the first of January to the first of month [m]. *)
Fixpoint days_before_month_aux (y : Z) (months : nat) (m : Z) : Z :=
  match months with
  | O => 0
  | S k => days_before_month_aux y k (m - 1) + days_in_month y (m - 1)
  end.
Definition days_before_month (y m : Z) : Z :=
  days_before_month_aux y (Z.to_nat (m - 1)) m.

(** The day number (0 for 0001-01-01) of a calendar date. *)
Definition days_from_civil (y m d : Z) : Z :=
  days_before_year y + days_before_month y m + (d - 1).

(** The year of a day number. *)
Definition year_of_days (n : Z) : Z :=
  let n400 := n / 146097 in
  let r400 := n mod 146097 in
  let n100 := Z.min 3 (r400 / 36524) in
  let r100 := r400 - n100 * 36524 in
  let n4 := r100 / 1461 in
  let r4 := r100 mod 1461 in
  let n1 := Z.min 3 (r4 / 365) in
  n400 * 400 + n100 * 100 + n4 * 4 + n1 + 1.

(** Month and day of the [r]-th day (from 0) of year [y], scanning the
    months from [m]. *)
Fixpoint month_day_aux (fuel : nat) (y m r : Z) : Z * Z :=
  match fuel with
  | O => (m, r + 1)
  | S k => if r <? days_in_month y m then (m, r + 1)
           else month_day_aux k y (m + 1) (r - days_in_month y m)
  end.

Definition civil_from_days (n : Z) : Z * Z * Z :=
  let y := year_of_days n in
  let '(m, d) := month_day_aux 11 y 1 (n - days_before_year y) in
  (y, m, d).

Definition format_date (t : Z) : string :=
  let '(y, m, d) := civil_from_days (t / DAY) in
  zero_padded 4 y ++ "-" ++ zero_padded 2 m ++ "-" ++ zero_padded 2 d.

(** [t.strftime('%H:%M')]. *)
Definition strftime_HM (t : Z) : string :=
  zero_padded 2 (t mod DAY / HOUR) ++ ":" ++ zero_padded 2 (t mod HOUR / MINUTE).


Definition format_time (t : Z) : string :=
  zero_padded 2 (t mod DAY / HOUR) ++ ":" ++ zero_padded 2 (t mod HOUR / MINUTE)
  ++ ":" ++ zero_padded 2 (t mod MINUTE / 1000000)
  ++ (if t mod 1000000 =? 0 then "" else "." ++ zero_padded 6 (t mod 1000000)).

Definition format_offset (off : Z) : string :=
  let a := Z.abs off in
  (if off <? 0 then "-" else "+")
  ++ zero_padded 2 (a / HOUR) ++ ":" ++ zero_padded 2 (a mod HOUR / MINUTE)
  ++ (if a mod MINUTE =? 0 then ""
      else ":" ++ zero_padded 2 (a mod MINUTE / 1000000)
           ++ (if a mod 1000000 =? 0 then ""
               else "." ++ zero_padded 6 (a mod 1000000))).

(** [d.isoformat()]. *)
Definition isoformat (d : datetime) : string :=
  format_date (wall d) ++ "T" ++ format_time (wall d)
  ++ match tzinfo d with
     | None => ""
     | Some off => format_offset off
     end.

(** ** The Python library's parsers *)

(** [strptime s fmt] is [datetime.strptime(s, fmt)] for a format without a
    timezone directive: the naive datetime read, always a representable
    one.  [fromisoformat] is [datetime.fromisoformat] and [py_int] is
    [int] on a string. *)
Class PyLib : Type := {
  strptime : string -> string -> result Z;
  strptime_range : forall s fmt t, strptime s fmt = Ok t -> 0 <= t <= MAXTICKS;
  fromisoformat : string -> result datetime;
  py_int : string -> result Z
}.

(** [s.replace('Z', '+00:00')]. *)
Fixpoint replace_Z (s : string) : string :=
  match s with
  | EmptyString => EmptyString
  | String c rest =>
      if Ascii.eqb c "Z"%char then "+00:00" ++ replace_Z rest
      else String c (replace_Z rest)
  end.

(** [sep.join(parts)]. *)
Fixpoint join (sep : string) (parts : list string) : string :=
  match parts with
  | [] => ""
  | [p] => p
  | p :: rest => p ++ sep ++ join sep rest
  end.

(** ** The calendar service *)

(** The value under ['start'] or ['end'] of an event. *)
Record EventTime : Type := mkEventTime {
  dateTime : option string;
  date : option string;
  timeZone : option string
}.

(** The body of an [events().insert] request. *)
Record EventBody : Type := mkEventBody {
  body_summary : string;
  body_description : string;
  body_start : EventTime;
  body_end : EventTime
}.

(** An event resource as the service returns it; a key can be absent. *)
Record Event : Type := mkEvent {
  id : string;
  htmlLink : option string;
  summary : option string;
  description : option string;
  start : option EventTime;
  end_ : option EventTime
}.

Inductive Request : Type :=
| ListRequest (calendarId timeMin timeMax : string)
| InsertRequest (calendarId : string) (body : EventBody).

(** The service: the events it holds, the counter its identifiers come
    from, the requests received so far (oldest first), when it refuses a
    request (authentication, network, quota, bad request), and which events
    of the calendar a list request with the given bounds returns, in which
    order. *)
Record Backend : Type := mkBackend {
  calendar : list Event;
  next_id : nat;
  requests : list Request;
  refuses : list Request -> Request -> option exn;
  select : string -> string -> list Event -> list Event
}.

(** What the process can observe and change: the service and the clock. *)
Record World : Type := mkWorld {
  backend : Backend;
  clock : Z
}.

Definition io (A : Type) : Type := World -> result A * World.

Definition ret {A} (a : A) : io A := fun w => (Ok a, w).
Definition lift {A} (r : result A) : io A := fun w => (r, w).
Definition bind {A B} (m : io A) (k : A -> io B) : io B :=
  fun w => match m w with
           | (Ok a, w') => k a w'
           | (Raise e, w') => (Raise e, w')
           end.

(** [try: body except Exception as e: handler e]. *)
Definition try_except {A} (body : io A) (handler : exn -> io A) : io A :=
  fun w => match body w with
           | (Ok a, w') => (Ok a, w')
           | (Raise e, w') => handler e w'
           end.

Declare Scope io_scope.
Delimit Scope io_scope with io.
Notation "x <- m ;; k" := (bind m (fun x => k))
  (at level 61, m at next level, right associativity) : io_scope.

Definition record_request (req : Request) (b : Backend) : Backend :=
  mkBackend (calendar b) (next_id b) (requests b ++ [req])%list
            (refuses b) (select b).

(** [service.events().list(calendarId=..., timeMin=..., timeMax=...,
    singleEvents=True, orderBy='startTime').execute().get('items', [])]. *)
Definition events_list (calendarId timeMin timeMax : string) : io (list Event) :=
  fun w =>
    let b := backend w in
    let req := ListRequest calendarId timeMin timeMax in
    let w' := mkWorld (record_request req b) (clock w) in
    match refuses b (requests b) req with
    | Some e => (Raise e, w')
    | None => (Ok (select b timeMin timeMax (calendar b)), w')
    end.

Definition fresh_id (b : Backend) : string :=
  "evt" ++ NilZero.string_of_uint (Nat.to_uint (next_id b)).

Definition stored_event (b : Backend) (body : EventBody) : Event :=
  mkEvent (fresh_id b)
          (Some ("https://www.google.com/calendar/event?eid=" ++ fresh_id b))
          (Some (body_summary body)) (Some (body_description body))
          (Some (body_start body)) (Some (body_end body)).

(** [service.events().insert(calendarId=..., body=...).execute()]: the
    service either refuses and keeps its calendar, or stores the event
    under a fresh identifier and returns the stored resource. *)
Definition events_insert (calendarId : string) (body : EventBody) : io Event :=
  fun w =>
    let b := backend w in
    let req := InsertRequest calendarId body in
    match refuses b (requests b) req with
    | Some e => (Raise e, mkWorld (record_request req b) (clock w))
    | None =>
        let ev := stored_event b body in
        (Ok ev,
         mkWorld (mkBackend (calendar b ++ [ev])%list (S (next_id b))
                            (requests b ++ [req])%list (refuses b) (select b))
                 (clock w))
    end.

(** ** [CalendarService] *)

(** [self.calendar_id = 'primary']. *)
Definition calendar_id : string := "primary".

(** An entry of the list [get_available_slots] returns. *)
Record Slot : Type := mkSlot {
  slot_start_time : string;
  slot_end_time : string;
  slot_datetime : string
}.

(** The dictionary [create_event] returns. *)
Record CreateResult : Type := mkCreateResult {
  success : bool;
  event_id : option string;
  event_link : option string;
  message : string
}.

(** An entry of the list [get_events] returns. *)
Record FormattedEvent : Type := mkFormattedEvent {
  fe_title : string;
  fe_start_time : option string;
  fe_description : string
}.

(** [field.get('dateTime', field.get('date'))]. *)
Definition get_dateTime_or_date (field : EventTime) : option string :=
  match dateTime field with
  | Some s => Some s
  | None => date field
  end.

Section Service.
Context {lib : PyLib}.

(** [datetime.fromisoformat(event[key].get('dateTime',
    event[key].get('date')).replace('Z', '+00:00'))] for [key] one of
    ['start'] and ['end']. *)
Definition event_datetime (field : option EventTime) (key : string)
  : result datetime :=
  match field with
  | None => Raise (KeyError ("'" ++ key ++ "'"))
  | Some f =>
      match get_dateTime_or_date f with
      | None =>
          Raise (AttributeError "'NoneType' object has no attribute 'replace'")
      | Some s => fromisoformat (replace_Z s)
      end
  end.

(** The test of line 70, on the slot from [current_time] to [slot_end] and
    an event from [event_start] to [event_end]. *)
Definition conflicts (current_time slot_end event_start event_end : Z) : bool :=
  (current_time <? event_end) && (slot_end >? event_start).

(** The [for event in events] loop of lines 61-72: the value of
    [is_available] when the loop is left. *)
Fixpoint slot_is_available (events : list Event) (current_time slot_end : Z)
  : result bool :=
  match events with
  | [] => Ok true
  | event :: rest =>
      (event_start <- event_datetime (start event) "start" ;;
       event_end <- event_datetime (end_ event) "end" ;;
       let event_start := replace_tzinfo_None event_start in
       let event_end := replace_tzinfo_None event_end in
       if conflicts current_time slot_end event_start event_end
       then Ok false
       else slot_is_available rest current_time slot_end)%result
  end.

(** The dictionary appended at lines 75-79. *)
Definition slot_dict (current_time slot_end : Z) : Slot :=
  mkSlot (strftime_HM current_time) (strftime_HM slot_end)
         (isoformat (naive current_time)).

(** One turn of the [while] loop of lines 57-81 on the loop variables
    [available_slots] and [current_time]: [None] when the loop condition is
    false, the new values of the variables otherwise. *)
Definition while_body (events : list Event) (duration_minutes end_time : Z)
    (available_slots : list Slot) (current_time : Z)
  : result (option (list Slot * Z)) :=
  (delta <- timedelta duration_minutes ;;
   probe <- dt_add current_time delta ;;
   if probe <=? end_time then
     delta <- timedelta duration_minutes ;;
     slot_end <- dt_add current_time delta ;;
     is_available <- slot_is_available events current_time slot_end ;;
     let available_slots :=
       if is_available
       then (available_slots ++ [slot_dict current_time slot_end])%list
       else available_slots in
     step <- timedelta 30 ;;
     current_time <- dt_add current_time step ;;
     Ok (Some (available_slots, current_time))
   else Ok None)%result.

(** The [while] loop of lines 57-81 and the [return] of line 83. *)
Equations? slots_while (events : list Event) (duration_minutes end_time : Z)
    (available_slots : list Slot) (current_time : Z) : result (list Slot)
  by wf (Z.to_nat ((end_time - duration_minutes * MINUTE - current_time)
                   / (30 * MINUTE) + 1)) lt :=
  slots_while events duration_minutes end_time available_slots current_time
    with inspect (while_body events duration_minutes end_time
                             available_slots current_time) => {
    | exist _ (Raise e) _ := Raise e;
    | exist _ (Ok None) _ := Ok available_slots;
    | exist _ (Ok (Some (available_slots', current_time'))) Hturn :=
        slots_while events duration_minutes end_time
                    available_slots' current_time' }.
Proof.
  assert (current_time + duration_minutes * MINUTE <= end_time
          /\ current_time' = current_time + 30 * MINUTE) as [Hle ->].
  { clear slots_while. revert Hturn. unfold while_body, rbind.
    destruct (timedelta duration_minutes) as [delta|] eqn:Hd; [|discriminate].
    assert (delta = duration_minutes * MINUTE) as ->.
    { unfold timedelta in Hd. destruct (_ && _); congruence. }
    unfold dt_add at 1.
    destruct (_ && _); [|discriminate].
    destruct (_ <=? end_time) eqn:Hle; [|discriminate].
    destruct (dt_add current_time (duration_minutes * MINUTE)); [|discriminate].
    destruct (slot_is_available _ _ _); [|discriminate].
    unfold timedelta. simpl.
    unfold dt_add. destruct (_ && _); [|discriminate].
    intros [= _ <-]. split; lia. }
  clear slots_while.
  set (x := end_time - duration_minutes * MINUTE - current_time).
  replace (end_time - duration_minutes * MINUTE - (current_time + 30 * MINUTE))
    with (x + (-1) * 1800000000) by (unfold x, MINUTE; lia).
  assert (0 <= x) by (unfold x; lia).
  rewrite Z.div_add by lia.
  assert (0 <= x / 1800000000) by (apply Z.div_pos; lia).
  lia.
Qed.

(** [CalendarService.get_available_slots(date, duration_minutes)]. *)
Definition get_available_slots (date : string) (duration_minutes : Z)
  : io (list Slot) :=
  try_except
    (target_date <- lift (strptime date "%Y-%m-%d") ;;
     let start_time := replace_time target_date 9 0 0 0 in
     let end_time := replace_time target_date 17 0 0 0 in
     events <- events_list calendar_id
                 (isoformat (naive start_time) ++ "Z")
                 (isoformat (naive end_time) ++ "Z") ;;
     lift (slots_while events duration_minutes end_time [] start_time))%io
    (fun e => ret []).

(** [CalendarService.create_event(title, start_datetime, duration_minutes,
    description)]. *)
Definition create_event (title start_datetime : string) (duration_minutes : Z)
    (description : string) : io CreateResult :=
  try_except
    (start_time <- lift (fromisoformat start_datetime) ;;
     delta <- lift (timedelta duration_minutes) ;;
     end_time <- lift (datetime_add start_time delta) ;;
     let event :=
       mkEventBody title description
         (mkEventTime (Some (isoformat start_time)) None (Some "UTC"))
         (mkEventTime (Some (isoformat end_time)) None (Some "UTC")) in
     created_event <- events_insert calendar_id event ;;
     ret (mkCreateResult true (Some (id created_event))
            (Some match htmlLink created_event with
                  | Some link => link
                  | None => ""
                  end)
            ("Event '" ++ title ++ "' created successfully")))%io
    (fun e =>
       ret (mkCreateResult false None None
              ("Failed to create event: " ++ str e))).

(** The body of the [for event in events] loop of [get_events]. *)
Definition format_event (event : Event) : result FormattedEvent :=
  match start event with
  | None => Raise (KeyError "'start'")
  | Some field =>
      Ok (mkFormattedEvent
            match summary event with Some t => t | None => "No Title" end
            (get_dateTime_or_date field)
            match description event with Some d => d | None => "" end)
  end.

Fixpoint format_events (events : list Event) (formatted_events : list FormattedEvent)
  : result (list FormattedEvent) :=
  match events with
  | [] => Ok formatted_events
  | event :: rest =>
      (f <- format_event event ;;
       format_events rest (formatted_events ++ [f])%list)%result
  end.

(** [CalendarService.get_events(date)]. *)
Definition get_events (date : string) : io (list FormattedEvent) :=
  try_except
    (target_date <- lift (strptime date "%Y-%m-%d") ;;
     let start_time := replace_time target_date 0 0 0 0 in
     let end_time := replace_time target_date 23 59 59 999999 in
     events <- events_list calendar_id
                 (isoformat (naive start_time) ++ "Z")
                 (isoformat (naive end_time) ++ "Z") ;;
     lift (format_events events []))%io
    (fun e => ret []).

(** ** The tools of [BookingAgent._create_tools] *)

(** [f"{slot['start_time']} - {slot['end_time']}"]. *)
Definition slot_line (slot : Slot) : string :=
  slot_start_time slot ++ " - " ++ slot_end_time slot.

(** [check_availability(date_str)]; the call of line 35 leaves
    [duration_minutes] to its default, 60. *)
Definition check_availability (date_str : string) : io string :=
  try_except
    (slots <- get_available_slots date_str 60 ;;
     match slots with
     | [] => ret ("No available slots found for " ++ date_str
                  ++ ". Please try another date.")
     | _ =>
         let slot_list := map slot_line (firstn 8 slots) in
         ret ("Available slots for " ++ date_str ++ ":" ++ String "010" ""
              ++ join (String "010" "") slot_list)
     end)%io
    (fun e => ret ("Error checking availability: " ++ str e)).

(** [book_appointment(title, date, time, duration)]. *)
Definition book_appointment (title date time duration : string) : io string :=
  try_except
    (let datetime_str := date ++ " " ++ time in
     start_datetime <- lift (strptime datetime_str "%Y-%m-%d %H:%M") ;;
     duration_minutes <- lift (py_int duration) ;;
     result <- create_event title (isoformat (naive start_datetime))
                 duration_minutes "" ;;
     if success result
     then ret ("✅ Appointment '" ++ title ++ "' booked successfully for "
               ++ date ++ " at " ++ time ++ "!")
     else ret ("❌ Failed to book appointment: " ++ message result))%io
    (fun e => ret ("Error booking appointment: " ++ str e)).


(** [f"- {event['title']} at {event['start_time']}"]; a missing start is
    Python's [None]. *)
Definition event_line (event : FormattedEvent) : string :=
  "- " ++ fe_title event ++ " at "
  ++ match fe_start_time event with Some s => s | None => "None" end.

(** [get_events_for_date(date)]. *)
Definition get_events_for_date (date : string) : io string :=
  try_except
    (events <- get_events date ;;
     match events with
     | [] => ret ("No events found for " ++ date)
     | _ =>
         let event_list := map event_line events in
         ret ("Events for " ++ date ++ ":" ++ String "010" ""
              ++ join (String "010" "") event_list)
     end)%io
    (fun e => ret ("Error getting events: " ++ str e)).

End Service.

(** ** A library instance for closed examples

    Parsers that accept the canonical, zero-padded forms only
    ([YYYY-MM-DD], [YYYY-MM-DD HH:MM], [YYYY-MM-DDTHH:MM:SS] with an optional
    [+HH:MM] or [-HH:MM] offset, and decimal integers with an optional sign)
    and read them as Python does. *)
Module Canonical.

Definition digit_of (c : ascii) : option Z :=
  let n := Z.of_nat (nat_of_ascii c) in
  if (48 <=? n) && (n <=? 57) then Some (n - 48) else None.

(** Reads exactly [n] decimal digits after the value [acc]. *)
Fixpoint digits (n : nat) (acc : Z) (s : string) : option (Z * string) :=
  match n with
  | O => Some (acc, s)
  | S k =>
      match s with
      | String c rest =>
          match digit_of c with
          | Some d => digits k (acc * 10 + d) rest
          | None => None
          end
      | EmptyString => None
      end
  end.

Definition expect (c : ascii) (s : string) : option string :=
  match s with
  | String c' rest => if Ascii.eqb c c' then Some rest else None
  | EmptyString => None
  end.

Definition obind {A B} (o : option A) (k : A -> option B) : option B :=
  match o with
  | Some a => k a
  | None => None
  end.

Notation "' p <- o ;; k" := (obind o (fun x => let p := x in k))
  (at level 61, p pattern, o at next level, right associativity).
Notation "x <- o ;; k" := (obind o (fun x => k))
  (at level 61, o at next level, right associativity).

(** The checks of the [datetime] constructor. *)
Definition make_datetime (y m d hh mm ss : Z) : result Z :=
  if (1 <=? y) && (y <=? 9999) && (1 <=? m) && (m <=? 12)
     && (1 <=? d) && (d <=? days_in_month y m)
     && (0 <=? hh) && (hh <? 24) && (0 <=? mm) && (mm <? 60)
     && (0 <=? ss) && (ss <? 60)
  then Ok (days_from_civil y m d * DAY + hh * HOUR + mm * MINUTE + ss * 1000000)
  else Raise (ValueError "value out of range").

Definition read_date (s : string) : option (Z * Z * Z * string) :=
  '(y, s) <- digits 4 0 s ;;
  s <- expect "-" s ;;
  '(m, s) <- digits 2 0 s ;;
  s <- expect "-" s ;;
  '(d, s) <- digits 2 0 s ;;
  Some (y, m, d, s).

Definition read_hour_minute (s : string) : option (Z * Z * string) :=
  '(hh, s) <- digits 2 0 s ;;
  s <- expect ":" s ;;
  '(mm, s) <- digits 2 0 s ;;
  Some (hh, mm, s).

Definition no_match (s fmt : string) : exn :=
  ValueError ("time data '" ++ s ++ "' does not match format '" ++ fmt ++ "'").

Definition strptime (s fmt : string) : result Z :=
  if String.eqb fmt "%Y-%m-%d" then
    match read_date s with
    | Some (y, m, d, EmptyString) => make_datetime y m d 0 0 0
    | _ => Raise (no_match s fmt)
    end
  else if String.eqb fmt "%Y-%m-%d %H:%M" then
    match ('(y, m, d, s') <- read_date s ;;
           s' <- expect " " s' ;;
           '(hh, mm, s') <- read_hour_minute s' ;;
           Some (y, m, d, hh, mm, s')) with
    | Some (y, m, d, hh, mm, EmptyString) => make_datetime y m d hh mm 0
    | _ => Raise (no_match s fmt)
    end
  else Raise (no_match s fmt).

Definition read_offset (s : string) : option (option Z) :=
  match s with
  | EmptyString => Some None
  | String sign rest =>
      match read_hour_minute rest with
      | Some (hh, mm, EmptyString) =>
          if (hh <? 24) && (mm <? 60) then
            if Ascii.eqb sign "+" then Some (Some (hh * HOUR + mm * MINUTE))
            else if Ascii.eqb sign "-" then Some (Some (- (hh * HOUR + mm * MINUTE)))
            else None
          else None
      | _ => None
      end
  end.

Definition invalid_iso (s : string) : exn :=
  ValueError ("Invalid isoformat string: '" ++ s ++ "'").

Definition fromisoformat (s : string) : result datetime :=
  match read_date s with
  | Some (y, m, d, EmptyString) =>
      (t <- make_datetime y m d 0 0 0 ;; Ok (naive t))%result
  | Some (y, m, d, rest) =>
      match (rest <- expect "T" rest ;;
             '(hh, mm, rest) <- read_hour_minute rest ;;
             rest <- expect ":" rest ;;
             '(ss, rest) <- digits 2 0 rest ;;
             tz <- read_offset rest ;;
             Some (hh, mm, ss, tz)) with
      | Some (hh, mm, ss, tz) =>
          (t <- make_datetime y m d hh mm ss ;; Ok (mkDatetime t tz))%result
      | None => Raise (invalid_iso s)
      end
  | None => Raise (invalid_iso s)
  end.

Fixpoint all_digits (acc : Z) (s : string) : option Z :=
  match s with
  | EmptyString => Some acc
  | String c rest =>
      match digit_of c with
      | Some d => all_digits (acc * 10 + d) rest
      | None => None
      end
  end.

Definition invalid_int (s : string) : exn :=
  ValueError ("invalid literal for int() with base 10: '" ++ s ++ "'").

Definition py_int (s : string) : result Z :=
  match s with
  | EmptyString => Raise (invalid_int s)
  | String c rest =>
      let signed :=
        if Ascii.eqb c "-" then
          match rest with
          | EmptyString => None
          | _ => option_map Z.opp (all_digits 0 rest)
          end
        else if Ascii.eqb c "+" then
          match rest with
          | EmptyString => None
          | _ => all_digits 0 rest
          end
        else all_digits 0 s in
      match signed with
      | Some n => Ok n
      | None => Raise (invalid_int s)
      end
  end.

End Canonical.

(** ** The availability engine as the specification words it

    Sections 3, 4.1, 4.2 and 4.3 of the specification, to compare
    [get_available_slots] with.  Instants and durations are in
    microseconds. *)
Module Spec.

Record Interval : Type := mkInterval {
  istart : Z;
  iend : Z
}.

(** A working window: the day number of its date and the opening and closing
    times of day. *)
Record WorkingWindow : Type := mkWindow {
  wdate : Z;
  wopen : Z;
  wclose : Z
}.

Definition opening (w : WorkingWindow) : Z := wdate w * DAY + wopen w.
Definition closing (w : WorkingWindow) : Z := wdate w * DAY + wclose w.

(** Section 4.1: [overlaps(a, b)]. *)
Definition overlaps (a b : Interval) : bool :=
  (istart a <? iend b) && (istart b <? iend a).

(** Section 4.2: from [current], step by [step] and stop once
    [current + duration > close]; [n] bounds the number of intervals. *)
Fixpoint generate_from (n : nat) (close duration step current : Z)
  : list Interval :=
  match n with
  | O => []
  | S k =>
      if current + duration >? close then []
      else mkInterval current (current + duration)
           :: generate_from k close duration step (current + step)
  end.

Definition generate (w : WorkingWindow) (duration step : Z) : list Interval :=
  generate_from
    (Z.to_nat ((closing w - duration - opening w) / step + 1))
    (closing w) duration step (opening w).

Definition free (busy : list Interval) (candidate : Interval) : bool :=
  forallb (fun b => negb (overlaps candidate b)) busy.

(** Ascending start-time order, between two intervals. *)
Definition ascending (a b : Interval) : Prop := istart a < istart b.

(** Section 4.3: [available_slots(window, duration, busy)], with the default
    step of 30 minutes. *)
Definition available_slots (w : WorkingWindow) (duration : Z)
    (busy : list Interval) : list Interval :=
  filter (free busy) (generate w duration (30 * MINUTE)).

End Spec.

(** ** Reading the model against the specification *)

Section Reading.
Context {lib : PyLib}.

(** The interval an event occupies for [get_available_slots]: its start and
    end as lines 63-68 read them. *)
Definition event_interval (event : Event) : result Spec.Interval :=
  (event_start <- event_datetime (start event) "start" ;;
   event_end <- event_datetime (end_ event) "end" ;;
   Ok (Spec.mkInterval (replace_tzinfo_None event_start)
                       (replace_tzinfo_None event_end)))%result.

Fixpoint busy_intervals (events : list Event) : result (list Spec.Interval) :=
  match events with
  | [] => Ok []
  | event :: rest =>
      (b <- event_interval event ;;
       bs <- busy_intervals rest ;;
       Ok (b :: bs))%result
  end.

End Reading.

(** The dictionary [get_available_slots] builds for an interval. *)
Definition slot_of_interval (i : Spec.Interval) : Slot :=
  slot_dict (Spec.istart i) (Spec.iend i).

(** The working window of [get_available_slots] on the date of
    [target_date]: 09:00 to 17:00. *)
Definition working_window (target_date : Z) : Spec.WorkingWindow :=
  Spec.mkWindow (target_date / DAY) (9 * HOUR) (17 * HOUR).

(** What [except Exception: return []] makes of the [try] body's outcome. *)
Definition or_empty {A} (r : result (list A)) : list A :=
  match r with
  | Ok l => l
  | Raise _ => []
  end.

(** Whether a computation returned, and what the service holds after it. *)
Definition returned {A} (out : result A * World) : option A :=
  match fst out with
  | Ok a => Some a
  | Raise _ => None
  end.
Definition calendar_after {A} (out : result A * World) : list Event :=
  calendar (backend (snd out)).
Definition requests_after {A} (out : result A * World) : list Request :=
  requests (backend (snd out)).

(** The request [create_event] builds from a start and an end. *)
Definition insert_request (title description : string)
    (start_time end_time : datetime) : Request :=
  InsertRequest calendar_id
    (mkEventBody title description
       (mkEventTime (Some (isoformat start_time)) None (Some "UTC"))
       (mkEventTime (Some (isoformat end_time)) None (Some "UTC"))).

(** The candidates of a working day for 60 minutes, as times of day. *)
Definition day_candidates : list Spec.Interval :=
  Spec.generate (Spec.mkWindow 0 (9 * HOUR) (17 * HOUR))
                (60 * MINUTE) (30 * MINUTE).

(** An interval moved later by [base]. *)
Definition shift (base : Z) (c : Spec.Interval) : Spec.Interval :=
  Spec.mkInterval (base + Spec.istart c) (base + Spec.iend c).

(** The event dictionary [create_event] builds (lines 95-106). *)
Definition event_body (title description : string)
    (start_time end_time : datetime) : EventBody :=
  mkEventBody title description
    (mkEventTime (Some (isoformat start_time)) None (Some "UTC"))
    (mkEventTime (Some (isoformat end_time)) None (Some "UTC")).

(** The entry [get_events] appends for an event (lines 146-151). *)
Definition formatted_entry (event : Event) : FormattedEvent :=
  mkFormattedEvent
    match summary event with Some t => t | None => "No Title" end
    match start event with
    | Some field => get_dateTime_or_date field
    | None => None
    end
    match description event with Some d => d | None => "" end.

(** ** [BookingAgent.process_message] and the [/chat] endpoint *)

(** A message of a conversation memory. *)
Inductive BaseMessage : Type :=
| HumanMessage (content : string)
| AIMessage (content : string).

(** [self.sessions]: a dictionary from session identifiers to the messages
    of their [ConversationBufferMemory], keys in insertion order.  A key is
    a string, or [None] when the request carried a null identifier. *)
Definition Sessions : Type := list (option string * list BaseMessage).

Definition key_eqb (a b : option string) : bool :=
  match a, b with
  | Some x, Some y => String.eqb x y
  | None, None => true
  | _, _ => false
  end.

(** [sessions.get(key)]. *)
Fixpoint sessions_get (sessions : Sessions) (key : option string)
  : option (list BaseMessage) :=
  match sessions with
  | [] => None
  | (k, messages) :: rest =>
      if key_eqb key k then Some messages else sessions_get rest key
  end.

(** [sessions[key] = messages]: in place for a key already there, at the
    end for a new one. *)
Fixpoint sessions_set (sessions : Sessions) (key : option string)
    (messages : list BaseMessage) : Sessions :=
  match sessions with
  | [] => [(key, messages)]
  | (k, old) :: rest =>
      if key_eqb key k then (k, messages) :: rest
      else (k, old) :: sessions_set rest key messages
  end.

(** The history [process_message] hands to the agent: the one of the
    session, empty for a session not seen before. *)
Definition history_of (sessions : Sessions) (session_id : option string)
  : list BaseMessage :=
  match sessions_get sessions session_id with
  | Some history => history
  | None => []
  end.

(** The text of the [except] branch of [process_message]. *)
Definition apology (e : exn) : string :=
  "I apologize, but I encountered an error: " ++ str e
  ++ ". Please try again.".

(** The request and response models of [main.py]. *)
Record ChatMessage : Type := mkChatMessage {
  cm_message : string;
  cm_session_id : option string
}.

Record ChatResponse : Type := mkChatResponse {
  cr_response : string;
  cr_session_id : string
}.

(** What the [/chat] endpoint answers: the response model, or the
    [HTTPException] it raises. *)
Inductive ChatOutcome : Type :=
| Responded (response : ChatResponse)
| HTTPException (status_code : Z) (detail : string).

Section Agent.

(** [self.agent_executor.invoke({"input": ..., "chat_history": ...})
    ["output"]]: the language model and its tool calls, which can change
    the world and can raise. *)
Variable agent_executor_invoke : string -> list BaseMessage -> io string.

(** The text of the validation error pydantic raises when [ChatResponse] is
    given [None] for its [session_id : str] field. *)
Variable none_is_not_a_string : string.

(** The [try] body of [process_message] (lines 162-184). *)
Definition process_message_body (message : string) (session_id : option string)
    (sessions : Sessions) (w : World) : result string * Sessions * World :=
  let sessions :=
    match sessions_get sessions session_id with
    | None => sessions_set sessions session_id []
    | Some _ => sessions
    end in
  match sessions_get sessions session_id with
  | None => (Raise (KeyError "session_id"), sessions, w)
  | Some chat_history =>
      match agent_executor_invoke message chat_history w with
      | (Ok output, w') =>
          (Ok output,
           sessions_set sessions session_id
             (chat_history ++ [HumanMessage message; AIMessage output])%list,
           w')
      | (Raise e, w') => (Raise e, sessions, w')
      end
  end.

(** [BookingAgent.process_message(message, session_id)]. *)
Definition process_message (message : string) (session_id : option string)
    (sessions : Sessions) (w : World) : result string * Sessions * World :=
  match process_message_body message session_id sessions w with
  | (Ok output, sessions', w') => (Ok output, sessions', w')
  | (Raise e, sessions', w') => (Ok (apology e), sessions', w')
  end.

(** [ChatResponse(response=..., session_id=...)]: the model validates its
    fields. *)
Definition make_ChatResponse (response : string) (session_id : option string)
  : result ChatResponse :=
  match session_id with
  | Some sid => Ok (mkChatResponse response sid)
  | None => Raise (ValueError none_is_not_a_string)
  end.

(** The [/chat] endpoint of [main.py] (lines 42-51). *)
Definition chat (chat_message : ChatMessage) (sessions : Sessions) (w : World)
  : ChatOutcome * Sessions * World :=
  match process_message (cm_message chat_message) (cm_session_id chat_message)
          sessions w with
  | (Ok response, sessions', w') =>
      match make_ChatResponse response (cm_session_id chat_message) with
      | Ok answer => (Responded answer, sessions', w')
      | Raise e => (HTTPException 500 (str e), sessions', w')
      end
  | (Raise e, sessions', w') => (HTTPException 500 (str e), sessions', w')
  end.

End Agent.

(** A session history made of exchanges: a human message, then the answer. *)
Fixpoint exchanges (messages : list BaseMessage) : Prop :=
  match messages with
  | [] => True
  | HumanMessage _ :: AIMessage _ :: rest => exchanges rest
  | _ => False
  end.

(** An agent for closed examples: it answers with the number of messages
    it was shown, and fails on the message ["crash"]. *)
Definition counting_agent (message : string) (chat_history : list BaseMessage)
  : io string :=
  fun w =>
    if String.eqb message "crash"
    then (Raise (ValueError "model unavailable"), w)
    else (Ok ("seen " ++ NilZero.string_of_uint
                           (Nat.to_uint (List.length chat_history))), w).

(** ** Sample worlds for closed examples *)

(** A service that refuses nothing and lists its whole calendar. *)
Definition accept_all : list Request -> Request -> option exn :=
  fun _ _ => None.
Definition whole_calendar : string -> string -> list Event -> list Event :=
  fun _ _ events => events.


Definition world_of (events : list Event) (now : Z) : World :=
  mkWorld (mkBackend events (List.length events) [] accept_all whole_calendar) now.

(** An event on 2024-01-10 from 10:00 to 11:00. *)
Definition busy_10_to_11 : Event :=
  mkEvent "evt0" None (Some "Review") None
    (Some (mkEventTime (Some "2024-01-10T10:00:00Z") None None))
    (Some (mkEventTime (Some "2024-01-10T11:00:00Z") None None)).

(** An event on 2024-01-10 from 13:00 to 14:00, with a UTC offset. *)
Definition busy_13_to_14 : Event :=
  mkEvent "evt1" None (Some "Lunch") None
    (Some (mkEventTime (Some "2024-01-10T13:00:00+05:30") None None))
    (Some (mkEventTime (Some "2024-01-10T14:00:00+05:30") None None)).

(** An event on the evening of 2024-01-10 whose ['end'] key is absent. *)
Definition event_without_end : Event :=
  mkEvent "evt2" None (Some "Dinner") None
    (Some (mkEventTime (Some "2024-01-10T20:00:00Z") None None))
    None.

(** An all-day event on 2024-01-10: ['date'] keys and no ['dateTime']. *)
Definition all_day_event : Event :=
  mkEvent "evt3" None (Some "Conference") None
    (Some (mkEventTime None (Some "2024-01-10") None))
    (Some (mkEventTime None (Some "2024-01-11") None)).

(** An event without ['start'], ['summary'] and ['description']. *)
Definition event_without_start : Event :=
  mkEvent "evt4" None None None None None.

(** Noon on 2024-06-01. *)
Definition noon_2024_06_01 : Z := days_from_civil 2024 6 1 * DAY + 12 * HOUR.

(** 2024-01-10 at the given time of day. *)
Definition on_2024_01_10 (hh mm : Z) : Z :=
  days_from_civil 2024 1 10 * DAY + hh * HOUR + mm * MINUTE.

(** ** Basic facts *)

Lemma MINUTE_eq : MINUTE = 60000000.
Proof. reflexivity. Qed.
Lemma HOUR_eq : HOUR = 3600000000.
Proof. reflexivity. Qed.
Lemma DAY_eq : DAY = 86400000000.
Proof. reflexivity. Qed.
Lemma MAXTICKS_eq : MAXTICKS = 315537897599999999.
Proof. vm_compute. reflexivity. Qed.

(** Replaces the time constants by their values, everywhere. *)
Ltac ticks := rewrite ?MAXTICKS_eq, ?DAY_eq, ?HOUR_eq, ?MINUTE_eq in *.
Ltac div_lia := Z.to_euclidean_division_equations; lia.

Lemma days_before_year_mono y y' :
  y <= y' -> days_before_year y <= days_before_year y'.
Proof. unfold days_before_year. intros. div_lia. Qed.

Lemma days_before_month_bound y m :
  1 <= m <= 12 ->
  0 <= days_before_month y m
  /\ days_before_month y m + days_in_month y m
     <= (if is_leap y then 366 else 365).
Proof.
  intros Hm.
  assert (m = 1 \/ m = 2 \/ m = 3 \/ m = 4 \/ m = 5 \/ m = 6 \/ m = 7
          \/ m = 8 \/ m = 9 \/ m = 10 \/ m = 11 \/ m = 12) as Hcases by lia.
  unfold days_before_month, days_in_month.
  repeat (destruct Hcases as [-> | Hcases]); try subst m;
    simpl; unfold days_in_month; simpl; destruct (is_leap y); simpl; lia.
Qed.

Lemma days_from_civil_range y m d :
  1 <= y <= 9999 -> 1 <= m <= 12 -> 1 <= d <= days_in_month y m ->
  0 <= days_from_civil y m d <= 3652058.
Proof.
  intros Hy Hm Hd. unfold days_from_civil.
  pose proof (days_before_month_bound y m Hm) as [Hlo Hhi].
  assert (0 <= days_before_year y)
    by (unfold days_before_year; div_lia).
  assert (days_before_year y + (if is_leap y then 366 else 365)
          = days_before_year (y + 1)) as Hnext.
  { unfold days_before_year, is_leap.
    replace (y + 1 - 1) with y by lia.
    destruct (y mod 4 =? 0) eqn:H4; destruct (y mod 100 =? 0) eqn:H100;
      destruct (y mod 400 =? 0) eqn:H400; cbn;
      rewrite ?Z.eqb_eq, ?Z.eqb_neq in *; div_lia. }
  pose proof (days_before_year_mono (y + 1) 10000 ltac:(lia)) as Hmono.
  change (days_before_year 10000) with 3652059 in Hmono.
  lia.
Qed.

Lemma make_datetime_range y m d hh mm ss t :
  Canonical.make_datetime y m d hh mm ss = Ok t -> 0 <= t <= MAXTICKS.
Proof.
  unfold Canonical.make_datetime.
  destruct (_ && _) eqn:Hc; [|discriminate].
  repeat rewrite andb_true_iff in Hc.
  repeat rewrite Z.leb_le in Hc. repeat rewrite Z.ltb_lt in Hc.
  intros [= <-].
  pose proof (days_from_civil_range y m d ltac:(lia) ltac:(lia) ltac:(lia)).
  ticks. lia.
Qed.

Lemma canonical_strptime_range s fmt t :
  Canonical.strptime s fmt = Ok t -> 0 <= t <= MAXTICKS.
Proof.
  unfold Canonical.strptime.
  destruct (String.eqb fmt "%Y-%m-%d").
  - destruct (Canonical.read_date s) as [[[[y m] d] [|c r]]|];
      try discriminate. apply make_datetime_range.
  - destruct (String.eqb fmt "%Y-%m-%d %H:%M"); [|discriminate].
    destruct (Canonical.obind _ _) as [[[[[[y m] d] hh] mm] [|c r]]|];
      try discriminate. apply make_datetime_range.
Qed.

(** The canonical parsers as a library. *)
Definition canonical_lib : PyLib := {|
  strptime := Canonical.strptime;
  strptime_range := canonical_strptime_range;
  fromisoformat := Canonical.fromisoformat;
  py_int := Canonical.py_int
|}.

(** ** The availability loop *)

Section Availability.
Context {lib : PyLib}.

Lemma slots_while_turn events d e acc cur :
  slots_while events d e acc cur =
  match while_body events d e acc cur with
  | Raise x => Raise x
  | Ok None => Ok acc
  | Ok (Some (acc', cur')) => slots_while events d e acc' cur'
  end.
Proof.
  rewrite slots_while_equation_1.
  destruct (inspect (while_body events d e acc cur)) as [[[[a c]|]|x] H];
    cbn -[while_body]; rewrite H; reflexivity.
Qed.

Lemma timedelta_value m delta : timedelta m = Ok delta -> delta = m * MINUTE.
Proof. unfold timedelta. destruct (_ && _); congruence. Qed.

Lemma timedelta_small m :
  -999999999 <= m / 1440 <= 999999999 -> timedelta m = Ok (m * MINUTE).
Proof.
  intros H. unfold timedelta.
  destruct (-999999999 <=? m / 1440) eqn:H1;
    destruct (m / 1440 <=? 999999999) eqn:H2; cbn; try reflexivity; lia.
Qed.

Lemma dt_add_in_range t delta :
  0 <= t + delta <= MAXTICKS -> dt_add t delta = Ok (t + delta).
Proof.
  intros H. unfold dt_add.
  destruct (0 <=? t + delta) eqn:H1;
    destruct (t + delta <=? MAXTICKS) eqn:H2; cbn; try reflexivity; lia.
Qed.

Lemma dt_add_out_of_range t delta :
  t + delta < 0 \/ MAXTICKS < t + delta ->
  exists e, dt_add t delta = Raise e.
Proof.
  intros H. unfold dt_add.
  destruct (0 <=? t + delta) eqn:H1;
    destruct (t + delta <=? MAXTICKS) eqn:H2; cbn; eauto; lia.
Qed.

Lemma gtb_negb_leb a b : (a >? b) = negb (a <=? b).
Proof. rewrite Z.gtb_ltb. apply Z.ltb_antisym. Qed.

Lemma conflicts_overlaps cur slot_end b :
  conflicts cur slot_end (Spec.istart b) (Spec.iend b)
  = Spec.overlaps (Spec.mkInterval cur slot_end) b.
Proof.
  unfold conflicts, Spec.overlaps. cbn. now rewrite Z.gtb_ltb.
Qed.

Lemma slot_is_available_free events busy cur slot_end :
  busy_intervals events = Ok busy ->
  slot_is_available events cur slot_end
  = Ok (Spec.free busy (Spec.mkInterval cur slot_end)).
Proof.
  revert busy. induction events as [|event rest IH]; intros busy Hbusy.
  - injection Hbusy as <-. reflexivity.
  - cbn in Hbusy. unfold event_interval, rbind in Hbusy. cbn.
    unfold rbind.
    destruct (event_datetime (start event) "start") as [es|]; [|discriminate].
    destruct (event_datetime (end_ event) "end") as [ee|]; [|discriminate].
    destruct (busy_intervals rest) as [bs|]; [|discriminate].
    injection Hbusy as <-. cbn.
    rewrite <- (conflicts_overlaps cur slot_end
                  (Spec.mkInterval (replace_tzinfo_None es)
                                   (replace_tzinfo_None ee))).
    cbn. destruct (conflicts _ _ _ _); cbn; [reflexivity|].
    now apply IH.
Qed.

(** When the events parse and nothing overflows, the loop appends to
    [available_slots] the dictionaries of the free candidates from
    [current_time] on. *)
Lemma slots_while_run events busy dur end_time n :
  busy_intervals events = Ok busy ->
  timedelta dur = Ok (dur * MINUTE) ->
  end_time + 30 * MINUTE <= MAXTICKS ->
  end_time - dur * MINUTE + 30 * MINUTE <= MAXTICKS ->
  forall cur acc,
    0 <= cur -> 0 <= cur + dur * MINUTE <= MAXTICKS ->
    (end_time - dur * MINUTE - cur) / (30 * MINUTE) + 1 <= Z.of_nat n ->
    slots_while events dur end_time acc cur
    = Ok (acc ++ map slot_of_interval
                   (filter (Spec.free busy)
                      (Spec.generate_from n end_time (dur * MINUTE)
                                          (30 * MINUTE) cur)))%list.
Proof.
  intros Hbusy Htd Hend Hend'.
  assert (0 < 30 * MINUTE) as Hstep by (unfold MINUTE; lia).
  induction n as [|n IH]; intros cur acc Hcur Hprobe Hn;
    rewrite slots_while_turn; unfold while_body, rbind;
    rewrite Htd, (dt_add_in_range _ _ Hprobe).
  - assert (end_time - dur * MINUTE - cur < 0) as Hneg.
    { destruct (Z.lt_ge_cases (end_time - dur * MINUTE - cur) 0) as [|Hge];
        [assumption|].
      pose proof (Z.div_pos _ (30 * MINUTE) Hge ltac:(lia)). lia. }
    destruct (_ <=? end_time) eqn:Hle; [apply Z.leb_le in Hle; clear - Hneg Hle; lia|].
    cbn. now rewrite app_nil_r.
  - cbn [Spec.generate_from].
    destruct (_ <=? end_time) eqn:Hle.
    + rewrite (slot_is_available_free _ _ _ _ Hbusy).
      replace (timedelta 30) with (Ok (A:=Z) (30 * MINUTE)) by reflexivity.
      rewrite gtb_negb_leb, Hle. cbn [negb].
      apply Z.leb_le in Hle.
      rewrite dt_add_in_range by lia.
      rewrite IH; try lia.
      * cbn [filter].
        destruct (Spec.free busy _); cbn [map]; [|reflexivity].
        now rewrite <- app_assoc.
      * replace (end_time - dur * MINUTE - (cur + 30 * MINUTE))
          with (end_time - dur * MINUTE - cur + (-1) * (30 * MINUTE)) by lia.
        rewrite Z.div_add by lia. lia.
    + rewrite gtb_negb_leb, Hle.
      cbn. now rewrite app_nil_r.
Qed.

(** An overflow at the first turn: the body raises, and there is no
    candidate. *)
Lemma slots_while_first_overflow events dur end_time n acc cur :
  0 <= dur -> 0 <= cur -> end_time <= MAXTICKS ->
  ~ (dur / 1440 <= 999999999 /\ cur + dur * MINUTE <= MAXTICKS) ->
  (exists e, slots_while events dur end_time acc cur = Raise e)
  /\ Spec.generate_from n end_time (dur * MINUTE) (30 * MINUTE) cur = [].
Proof.
  intros Hdur Hcur Hend Hover. split.
  - rewrite slots_while_turn. unfold while_body, rbind.
    unfold timedelta.
    destruct (dur / 1440 <=? 999999999) eqn:Hd.
    + assert ((-999999999 <=? dur / 1440) = true) as ->.
      { apply Z.leb_le. pose proof (Z.div_pos dur 1440 Hdur). lia. }
      cbn [andb].
      destruct (dt_add_out_of_range cur (dur * MINUTE)) as [e ->]; [lia|].
      now exists e.
    + rewrite andb_false_r. eauto.
  - destruct n as [|n]; [reflexivity|]. cbn [Spec.generate_from].
    assert ((cur + dur * MINUTE >? end_time) = true) as ->; [|reflexivity].
    apply Z.gtb_lt.
    destruct (Z.le_gt_cases (dur / 1440) 999999999) as [Hsmall|Hbig]; [lia|].
    assert (1440 * 1000000000 <= dur) by div_lia.
    assert (1440 * 1000000000 * MINUTE <= dur * MINUTE)
      by (apply Z.mul_le_mono_nonneg_r; [unfold MINUTE|]; lia).
    assert (MAXTICKS < 1440 * 1000000000 * MINUTE) by reflexivity.
    lia.
Qed.

(** The list [get_available_slots] computes from the events read, for any
    window and any duration that is not negative. *)
Lemma slots_while_window events busy dur (w : Spec.WorkingWindow) :
  busy_intervals events = Ok busy ->
  0 <= dur -> 0 <= Spec.opening w -> Spec.closing w + 30 * MINUTE <= MAXTICKS ->
  or_empty (slots_while events dur (Spec.closing w) [] (Spec.opening w))
  = map slot_of_interval (Spec.available_slots w (dur * MINUTE) busy).
Proof.
  intros Hbusy Hdur Hopen Hclose.
  unfold Spec.available_slots, Spec.generate.
  set (n := Z.to_nat _).
  assert (0 <= dur * MINUTE) by (unfold MINUTE; lia).
  assert (0 < 30 * MINUTE) by (unfold MINUTE; lia).
  destruct (Z.le_gt_cases (dur / 1440) 999999999) as [Hsmall|Hbig];
    [destruct (Z.le_gt_cases (Spec.opening w + dur * MINUTE) MAXTICKS)
       as [Hfit|Hover]|].
  - assert (timedelta dur = Ok (dur * MINUTE)) as Htd.
    { apply timedelta_small. pose proof (Z.div_pos dur 1440 Hdur). lia. }
    rewrite (slots_while_run events busy dur (Spec.closing w) n Hbusy Htd);
      try lia.
    reflexivity.
  - destruct (slots_while_first_overflow events dur (Spec.closing w) n []
                (Spec.opening w)) as [[e ->] ->]; try lia.
    reflexivity.
  - destruct (slots_while_first_overflow events dur (Spec.closing w) n []
                (Spec.opening w)) as [[e ->] ->]; try lia.
    reflexivity.
Qed.

End Availability.

(** ** The generator and the filter of the specification *)

Section SpecFacts.
Import Spec.

Lemma generate_from_nth n close d step cur k :
  0 < step ->
  (close - d - cur) / step + 1 <= Z.of_nat n ->
  nth_error (generate_from n close d step cur) k
  = if cur + Z.of_nat k * step + d <=? close
    then Some (mkInterval (cur + Z.of_nat k * step)
                          (cur + Z.of_nat k * step + d))
    else None.
Proof.
  intros Hstep. revert cur k.
  induction n as [|n IH]; intros cur k Hn.
  - assert (close - d - cur < 0) as Hneg.
    { destruct (Z.lt_ge_cases (close - d - cur) 0) as [|Hge]; [assumption|].
      pose proof (Z.div_pos _ step Hge Hstep). lia. }
    assert (0 <= Z.of_nat k * step) by nia.
    destruct (_ <=? close) eqn:Hle; [apply Z.leb_le in Hle; lia|].
    now destruct k.
  - cbn [generate_from]. rewrite gtb_negb_leb.
    destruct (cur + d <=? close) eqn:Hfit; cbn [negb].
    + apply Z.leb_le in Hfit. destruct k as [|k].
      * cbn. replace (cur + 0 + d) with (cur + d) by lia.
        replace (cur + 0) with cur by lia.
        apply Z.leb_le in Hfit. now rewrite Hfit.
      * cbn [nth_error]. rewrite IH.
        -- replace (cur + step + Z.of_nat k * step)
             with (cur + Z.of_nat (S k) * step) by lia.
           reflexivity.
        -- replace (close - d - (cur + step))
             with (close - d - cur + (-1) * step) by lia.
           rewrite Z.div_add by lia. lia.
    + apply Z.leb_gt in Hfit.
      assert (0 <= Z.of_nat k * step) by nia.
      destruct (_ <=? close) eqn:Hle; [apply Z.leb_le in Hle; lia|].
      now destruct k.
Qed.

Lemma generate_nth w d step k :
  0 < step ->
  nth_error (generate w d step) k
  = if opening w + Z.of_nat k * step + d <=? closing w
    then Some (mkInterval (opening w + Z.of_nat k * step)
                          (opening w + Z.of_nat k * step + d))
    else None.
Proof.
  intros Hstep. unfold generate. apply generate_from_nth; [assumption|lia].
Qed.

Lemma generate_from_shape n close d step cur :
  Forall (fun i => iend i = istart i + d /\ iend i <= close)
         (generate_from n close d step cur).
Proof.
  revert cur. induction n as [|n IH]; intros cur; cbn; [constructor|].
  rewrite gtb_negb_leb.
  destruct (cur + d <=? close) eqn:Hfit; cbn; constructor.
  - cbn. apply Z.leb_le in Hfit. lia.
  - apply IH.
Qed.

Lemma generate_from_lower n close d step cur :
  0 <= step ->
  Forall (fun i => cur <= istart i) (generate_from n close d step cur).
Proof.
  intros Hstep. revert cur.
  induction n as [|n IH]; intros cur; cbn; [constructor|].
  destruct (cur + d >? close); constructor.
  - cbn. lia.
  - eapply Forall_impl; [|apply IH]. cbn. intros. lia.
Qed.

Lemma generate_from_ascending n close d step cur :
  0 < step ->
  StronglySorted ascending (generate_from n close d step cur).
Proof.
  intros Hstep. revert cur.
  induction n as [|n IH]; intros cur; cbn; [constructor|].
  destruct (cur + d >? close); constructor.
  - apply IH.
  - eapply Forall_impl;
      [|apply (generate_from_lower n close d step (cur + step)); lia].
    unfold ascending. cbn. intros. lia.
Qed.

Lemma filter_StronglySorted {A} (R : A -> A -> Prop) (f : A -> bool) l :
  StronglySorted R l -> StronglySorted R (filter f l).
Proof.
  induction 1 as [|a l Hl IH Ha]; cbn; [constructor|].
  destruct (f a); [|assumption].
  constructor; [assumption|].
  rewrite Forall_forall in *. intros x Hx.
  apply filter_In in Hx. now apply Ha.
Qed.

Lemma available_slots_ascending w d busy :
  StronglySorted ascending (available_slots w d busy).
Proof.
  apply filter_StronglySorted, generate_from_ascending.
  unfold MINUTE. lia.
Qed.

End SpecFacts.

(** ** [get_available_slots] *)

Section GetAvailableSlots.
Context {lib : PyLib}.

Lemma get_available_slots_bad_date date dur w e :
  strptime date "%Y-%m-%d" = Raise e ->
  get_available_slots date dur w = (Ok [], w).
Proof.
  intros Hdate. unfold get_available_slots, try_except, bind, lift.
  now rewrite Hdate.
Qed.

Lemma get_available_slots_listed date dur w t0 :
  strptime date "%Y-%m-%d" = Ok t0 ->
  get_available_slots date dur w
  = match events_list calendar_id
            (isoformat (naive (replace_time t0 9 0 0 0)) ++ "Z")
            (isoformat (naive (replace_time t0 17 0 0 0)) ++ "Z") w with
    | (Ok events, w') =>
        (Ok (or_empty (slots_while events dur (replace_time t0 17 0 0 0) []
                                   (replace_time t0 9 0 0 0))), w')
    | (Raise _, w') => (Ok [], w')
    end.
Proof.
  intros Hdate. unfold get_available_slots, try_except, bind, lift, ret.
  rewrite Hdate.
  destruct (events_list _ _ _ w) as [[events|e] w']; [|reflexivity].
  now destruct (slots_while _ _ _ _ _).
Qed.

Lemma working_window_bounds t0 :
  0 <= t0 <= MAXTICKS ->
  Spec.opening (working_window t0) = replace_time t0 9 0 0 0
  /\ Spec.closing (working_window t0) = replace_time t0 17 0 0 0
  /\ 0 <= Spec.opening (working_window t0)
  /\ Spec.closing (working_window t0) + 30 * MINUTE <= MAXTICKS.
Proof.
  intros Ht0. unfold Spec.opening, Spec.closing, working_window, replace_time.
  cbn [Spec.wdate Spec.wopen Spec.wclose].
  ticks. div_lia.
Qed.

End GetAvailableSlots.

(** ** The overlap test *)

(** C4: the overlap test of [get_available_slots] (line 70) is true exactly
    when [a.start < b.end] and [b.start < a.end]; it is symmetric; and two
    adjacent intervals, one ending when the other starts, never overlap. *)
Theorem conflicts_half_open (a_start a_end b_start b_end : Z) :
  (conflicts a_start a_end b_start b_end = true
   <-> a_start < b_end /\ b_start < a_end)
  /\ conflicts a_start a_end b_start b_end
     = conflicts b_start b_end a_start a_end
  /\ conflicts a_start a_end a_end b_end = false
  /\ conflicts a_start a_end b_start a_start = false.
Proof.
  unfold conflicts. rewrite !Z.gtb_ltb.
  split; [|split; [|split]].
  - rewrite andb_true_iff, !Z.ltb_lt. reflexivity.
  - apply andb_comm.
  - rewrite Z.ltb_irrefl. apply andb_false_r.
  - now rewrite Z.ltb_irrefl.
Qed.

(** ** Exactness of the availability engine *)

Section Exactness.
Context {lib : PyLib}.
Import Spec.

Lemma slots_while_too_long events dur end_time start_time :
  end_time - start_time < dur * MINUTE ->
  or_empty (slots_while events dur end_time [] start_time) = [].
Proof.
  intros Hlong. rewrite slots_while_turn. unfold while_body, rbind.
  destruct (timedelta dur) as [delta|] eqn:Htd; [|reflexivity].
  apply timedelta_value in Htd. subst delta.
  unfold dt_add. destruct (_ && _); [|reflexivity].
  destruct (_ <=? end_time) eqn:Hle; [|reflexivity].
  apply Z.leb_le in Hle. lia.
Qed.

(** C1: [get_available_slots] returns exactly the candidates of the slot
    generator that overlap no busy interval, in ascending start-time order:
    for the loop on any working window; for the method itself, on the
    window 09:00-17:00 of the date given; and on the scenario with one
    event from 10:00 to 11:00, where the slots starting at 09:30, 10:00 and
    10:30 are left out and those starting at 09:00 and 11:00 are kept. *)
Theorem get_available_slots_exact :
  (forall events busy dur win,
      busy_intervals events = Ok busy ->
      0 <= dur -> 0 <= opening win -> closing win + 30 * MINUTE <= MAXTICKS ->
      let returned_slots := available_slots win (dur * MINUTE) busy in
      or_empty (slots_while events dur (closing win) [] (opening win))
      = map slot_of_interval returned_slots
      /\ (forall c, In c returned_slots
                    <-> In c (generate win (dur * MINUTE) (30 * MINUTE))
                        /\ forall b, In b busy -> overlaps c b = false)
      /\ StronglySorted ascending returned_slots)
  /\ (forall date dur w t0 events w' busy,
         strptime date "%Y-%m-%d" = Ok t0 ->
         events_list calendar_id
           (isoformat (naive (replace_time t0 9 0 0 0)) ++ "Z")
           (isoformat (naive (replace_time t0 17 0 0 0)) ++ "Z") w
         = (Ok events, w') ->
         busy_intervals events = Ok busy ->
         0 <= dur ->
         get_available_slots date dur w
         = (Ok (map slot_of_interval
                  (available_slots (working_window t0) (dur * MINUTE) busy)),
            w'))
  /\ option_map (map slot_line)
       (returned (get_available_slots (lib := canonical_lib) "2024-01-10" 60
                    (world_of [busy_10_to_11] noon_2024_06_01)))
     = Some ["09:00 - 10:00"; "11:00 - 12:00"; "11:30 - 12:30";
             "12:00 - 13:00"; "12:30 - 13:30"; "13:00 - 14:00";
             "13:30 - 14:30"; "14:00 - 15:00"; "14:30 - 15:30";
             "15:00 - 16:00"; "15:30 - 16:30"; "16:00 - 17:00"].
Proof.
  split; [|split].
  - intros events busy dur win Hbusy Hdur Hopen Hclose returned_slots.
    split; [|split].
    + now apply slots_while_window.
    + intros c. unfold returned_slots, available_slots.
      rewrite filter_In. unfold free. rewrite forallb_forall.
      split; intros [Hin Hfree]; (split; [assumption|]); intros b Hb.
      * apply Hfree in Hb. now destruct (overlaps c b).
      * now rewrite (Hfree b Hb).
    + apply available_slots_ascending.
  - intros date dur w t0 events w' busy Hdate Hlist Hbusy Hdur.
    rewrite (get_available_slots_listed _ _ _ _ Hdate), Hlist.
    pose proof (strptime_range _ _ _ Hdate) as Ht0.
    destruct (working_window_bounds t0 Ht0) as (Ho & Hc & Hlo & Hhi).
    rewrite <- Ho, <- Hc.
    now rewrite (slots_while_window events busy dur _ Hbusy Hdur Hlo Hhi).
  - vm_compute. reflexivity.
Qed.

End Exactness.

Lemma get_available_slots_exact_witness :
  let events := [busy_10_to_11] in
  let busy := [Spec.mkInterval (on_2024_01_10 10 0) (on_2024_01_10 11 0)] in
  let win := working_window (on_2024_01_10 0 0) in
  let w := world_of events noon_2024_06_01 in
  let timeMin := isoformat (naive (replace_time (on_2024_01_10 0 0) 9 0 0 0))
                 ++ "Z" in
  let timeMax := isoformat (naive (replace_time (on_2024_01_10 0 0) 17 0 0 0))
                 ++ "Z" in
  let w' := snd (events_list calendar_id timeMin timeMax w) in
  (busy_intervals (lib := canonical_lib) events = Ok busy
   /\ 0 <= 60 /\ 0 <= Spec.opening win
   /\ Spec.closing win + 30 * MINUTE <= MAXTICKS
   /\ strptime (PyLib := canonical_lib) "2024-01-10" "%Y-%m-%d"
      = Ok (on_2024_01_10 0 0)
   /\ events_list calendar_id timeMin timeMax w = (Ok events, w'))
  /\ or_empty (slots_while (lib := canonical_lib) events 60 (Spec.closing win) []
                           (Spec.opening win))
     = map slot_of_interval (Spec.available_slots win (60 * MINUTE) busy)
  /\ get_available_slots (lib := canonical_lib) "2024-01-10" 60 w
     = (Ok (map slot_of_interval
              (Spec.available_slots win (60 * MINUTE) busy)), w').
Proof.
  intros events busy win w timeMin timeMax w'.
  assert (busy_intervals (lib := canonical_lib) events = Ok busy
          /\ 0 <= 60 /\ 0 <= Spec.opening win
          /\ Spec.closing win + 30 * MINUTE <= MAXTICKS
          /\ strptime (PyLib := canonical_lib) "2024-01-10" "%Y-%m-%d"
             = Ok (on_2024_01_10 0 0)
          /\ events_list calendar_id timeMin timeMax w = (Ok events, w'))
    as Hyp.
  { repeat split; vm_compute; congruence. }
  split; [exact Hyp|].
  destruct Hyp as (H1 & H2 & H3 & H4 & H5 & H6).
  split.
  - exact (proj1 (proj1 (get_available_slots_exact (lib := canonical_lib))
                    events busy 60 win H1 H2 H3 H4)).
  - exact (proj1 (proj2 (get_available_slots_exact (lib := canonical_lib)))
             "2024-01-10" 60 w (on_2024_01_10 0 0) events w' busy
             H5 H6 H1 H2).
Defined.


Section Candidates.
Context {lib : PyLib}.
Import Spec.

(** C5: the candidates of the loop of [get_available_slots] start at the
    opening time and are 30 minutes apart; the [k]-th one exists exactly
    when it ends at or before the closing time; each lasts exactly the
    duration asked for; and a duration longer than the window gives the
    empty list, returned like any other list: for the loop on any window,
    for the method on its window of 480 minutes, and for the window
    09:00-09:30 with a duration of 60 minutes. *)
Theorem candidate_sequence :
  (forall dur win,
      0 <= dur -> 0 <= opening win -> closing win + 30 * MINUTE <= MAXTICKS ->
      let candidates := generate win (dur * MINUTE) (30 * MINUTE) in
      or_empty (slots_while [] dur (closing win) [] (opening win))
      = map slot_of_interval candidates
      /\ (forall k,
             nth_error candidates k
             = if opening win + Z.of_nat k * (30 * MINUTE) + dur * MINUTE
                  <=? closing win
               then Some (mkInterval
                            (opening win + Z.of_nat k * (30 * MINUTE))
                            (opening win + Z.of_nat k * (30 * MINUTE)
                             + dur * MINUTE))
               else None)
      /\ Forall (fun c => iend c - istart c = dur * MINUTE
                          /\ opening win <= istart c
                          /\ iend c <= closing win) candidates)
  /\ (forall events dur end_time start_time,
         end_time - start_time < dur * MINUTE ->
         or_empty (slots_while events dur end_time [] start_time) = [])
  /\ (forall date dur w,
         480 < dur -> exists w', get_available_slots date dur w = (Ok [], w'))
  /\ slots_while (lib := canonical_lib) [] 60 (on_2024_01_10 9 30) []
                 (on_2024_01_10 9 0)
     = Ok [].
Proof.
  assert (0 < 30 * MINUTE) as Hstep by (ticks; lia).
  split; [|split; [|split]].
  - intros dur win Hdur Hopen Hclose candidates. split; [|split].
    + rewrite (slots_while_window [] [] dur win eq_refl Hdur Hopen Hclose).
      unfold available_slots. f_equal.
      apply forallb_filter_id. now apply forallb_forall.
    + intros k. now apply generate_nth.
    + pose proof (generate_from_shape
                    (Z.to_nat ((closing win - dur * MINUTE - opening win)
                               / (30 * MINUTE) + 1))
                    (closing win) (dur * MINUTE) (30 * MINUTE) (opening win))
        as Hshape.
      pose proof (generate_from_lower
                    (Z.to_nat ((closing win - dur * MINUTE - opening win)
                               / (30 * MINUTE) + 1))
                    (closing win) (dur * MINUTE) (30 * MINUTE) (opening win)
                    ltac:(lia)) as Hlower.
      unfold candidates, generate.
      rewrite Forall_forall in *. intros c Hc.
      specialize (Hshape c Hc). specialize (Hlower c Hc). cbn in *. lia.
  - apply slots_while_too_long.
  - intros date dur w Hlong.
    destruct (strptime date "%Y-%m-%d") as [t0|e] eqn:Hdate.
    + rewrite (get_available_slots_listed _ _ _ _ Hdate).
      destruct (events_list _ _ _ w) as [[events|e] w']; [|eauto].
      rewrite slots_while_too_long; [eauto|].
      unfold replace_time. ticks. lia.
    + rewrite (get_available_slots_bad_date _ _ _ _ Hdate). eauto.
  - vm_compute. reflexivity.
Qed.

End Candidates.

Lemma candidate_sequence_witness :
  let win := working_window (on_2024_01_10 0 0) in
  let w := world_of [busy_10_to_11] noon_2024_06_01 in
  (0 <= 60 /\ 0 <= Spec.opening win
   /\ Spec.closing win + 30 * MINUTE <= MAXTICKS
   /\ on_2024_01_10 9 30 - on_2024_01_10 9 0 < 60 * MINUTE
   /\ 480 < 600)
  /\ or_empty (slots_while (lib := canonical_lib) [] 60 (Spec.closing win) []
                           (Spec.opening win))
     = map slot_of_interval (Spec.generate win (60 * MINUTE) (30 * MINUTE))
  /\ or_empty (slots_while (lib := canonical_lib) [busy_10_to_11] 60
                           (on_2024_01_10 9 30) [] (on_2024_01_10 9 0)) = []
  /\ exists w', get_available_slots (lib := canonical_lib) "2024-01-10" 600 w
                = (Ok [], w').
Proof.
  intros win w.
  assert (0 <= 60 /\ 0 <= Spec.opening win
          /\ Spec.closing win + 30 * MINUTE <= MAXTICKS
          /\ on_2024_01_10 9 30 - on_2024_01_10 9 0 < 60 * MINUTE
          /\ 480 < 600) as Hyp.
  { repeat split; vm_compute; congruence. }
  split; [exact Hyp|].
  destruct Hyp as (H1 & H2 & H3 & H4 & H5).
  split; [|split].
  - exact (proj1 (proj1 (candidate_sequence (lib := canonical_lib))
                    60 win H1 H2 H3)).
  - exact (proj1 (proj2 (candidate_sequence (lib := canonical_lib)))
             [busy_10_to_11] 60 (on_2024_01_10 9 30) (on_2024_01_10 9 0) H4).
  - exact (proj1 (proj2 (proj2 (candidate_sequence (lib := canonical_lib))))
             "2024-01-10" 600 w H5).
Defined.

(** ** More busy events, fewer slots *)

Section Antitone.
Context {lib : PyLib}.
Import Spec.

Lemma dt_add_value t delta r : dt_add t delta = Ok r -> r = t + delta.
Proof. unfold dt_add. destruct (_ && _); congruence. Qed.

(** One turn of the loop, with the repeated computations shared. *)
Lemma while_body_eq events dur end_time acc cur :
  while_body events dur end_time acc cur
  = match timedelta dur with
    | Raise x => Raise x
    | Ok delta =>
        match dt_add cur delta with
        | Raise x => Raise x
        | Ok slot_end =>
            if slot_end <=? end_time then
              match slot_is_available events cur slot_end with
              | Raise x => Raise x
              | Ok is_available =>
                  match dt_add cur (30 * MINUTE) with
                  | Raise x => Raise x
                  | Ok next =>
                      Ok (Some (if is_available
                                then (acc ++ [slot_dict cur slot_end])%list
                                else acc, next))
                  end
              end
            else Ok None
        end
    end.
Proof.
  unfold while_body, rbind.
  destruct (timedelta dur) as [delta|]; [|reflexivity].
  destruct (dt_add cur delta) as [slot_end|]; [|reflexivity].
  destruct (slot_end <=? end_time); reflexivity.
Qed.

(** The turns left decrease when the loop goes on. *)
Lemma turns_left dur end_time cur delta slot_end next n :
  timedelta dur = Ok delta ->
  dt_add cur delta = Ok slot_end ->
  (slot_end <=? end_time) = true ->
  dt_add cur (30 * MINUTE) = Ok next ->
  (end_time - dur * MINUTE - cur) / (30 * MINUTE) + 1 <= Z.of_nat (S n) ->
  (end_time - dur * MINUTE - next) / (30 * MINUTE) + 1 <= Z.of_nat n.
Proof.
  intros Htd Hend Hle Hnext Hn.
  apply timedelta_value in Htd. apply dt_add_value in Hend, Hnext.
  apply Z.leb_le in Hle. subst.
  assert (0 < 30 * MINUTE) by (ticks; lia).
  replace (end_time - dur * MINUTE - (cur + 30 * MINUTE))
    with (end_time - dur * MINUTE - cur + (-1) * (30 * MINUTE)) by lia.
  rewrite Z.div_add by lia. lia.
Qed.

Lemma no_turn_left dur end_time cur delta slot_end :
  timedelta dur = Ok delta ->
  dt_add cur delta = Ok slot_end ->
  (end_time - dur * MINUTE - cur) / (30 * MINUTE) + 1 <= Z.of_nat 0 ->
  (slot_end <=? end_time) = false.
Proof.
  intros Htd Hend Hn.
  apply timedelta_value in Htd. apply dt_add_value in Hend. subst.
  assert (0 < 30 * MINUTE) by (ticks; lia).
  apply Z.leb_gt.
  destruct (Z.lt_ge_cases (end_time - dur * MINUTE - cur) 0) as [|Hge]; [lia|].
  pose proof (Z.div_pos _ (30 * MINUTE) Hge ltac:(lia)). lia.
Qed.

Lemma busy_intervals_In events busy event :
  busy_intervals events = Ok busy -> In event events ->
  exists b, event_interval event = Ok b /\ In b busy.
Proof.
  revert busy. induction events as [|ev rest IH]; intros busy Hbusy Hin;
    [contradiction|].
  cbn in Hbusy. unfold rbind in Hbusy.
  destruct (event_interval ev) as [b|] eqn:Hev; [|discriminate].
  destruct (busy_intervals rest) as [bs|]; [|discriminate].
  injection Hbusy as <-.
  destruct Hin as [->|Hin].
  - exists b. split; [assumption|now left].
  - destruct (IH bs eq_refl Hin) as (b' & Hb' & Hin').
    exists b'. split; [assumption|now right].
Qed.

Lemma busy_intervals_incl small large busy' :
  incl small large -> busy_intervals large = Ok busy' ->
  exists busy, busy_intervals small = Ok busy /\ incl busy busy'.
Proof.
  intros Hincl Hlarge.
  induction small as [|ev rest IH].
  - exists []. split; [reflexivity|]. intros b [].
  - destruct IH as (bs & Hbs & Hsub).
    { intros x Hx. apply Hincl. now right. }
    destruct (busy_intervals_In large busy' ev Hlarge) as (b & Hb & Hin).
    { apply Hincl. now left. }
    exists (b :: bs). split.
    + cbn. unfold rbind. now rewrite Hb, Hbs.
    + intros x [<-|Hx]; [assumption|now apply Hsub].
Qed.

Lemma free_incl busy busy' c :
  incl busy busy' -> free busy' c = true -> free busy c = true.
Proof.
  unfold free. rewrite !forallb_forall. intros Hincl Hfree b Hb.
  apply Hfree, Hincl, Hb.
Qed.

(** An event that cannot be read makes no slot available. *)
Lemma slot_is_available_unread events e cur slot_end :
  busy_intervals events = Raise e ->
  slot_is_available events cur slot_end <> Ok true.
Proof.
  induction events as [|ev rest IH]; intros Hbusy; [discriminate|].
  cbn in *. unfold event_interval, rbind in *.
  destruct (event_datetime (start ev) "start") as [es|]; [|discriminate].
  destruct (event_datetime (end_ ev) "end") as [ee|]; [|discriminate].
  destruct (conflicts _ _ _ _); [discriminate|].
  apply IH. now destruct (busy_intervals rest).
Qed.

Lemma slots_while_unread events e dur end_time n :
  busy_intervals events = Raise e ->
  forall cur,
    (end_time - dur * MINUTE - cur) / (30 * MINUTE) + 1 <= Z.of_nat n ->
    or_empty (slots_while events dur end_time [] cur) = [].
Proof.
  intros Hbusy. induction n as [|n IH]; intros cur Hn;
    rewrite slots_while_turn, while_body_eq;
    destruct (timedelta dur) as [delta|] eqn:Htd; try reflexivity;
    destruct (dt_add cur delta) as [slot_end|] eqn:Hend; try reflexivity.
  - now rewrite (no_turn_left _ _ _ _ _ Htd Hend Hn).
  - destruct (slot_end <=? end_time) eqn:Hle; [|reflexivity].
    pose proof (slot_is_available_unread events e cur slot_end Hbusy) as Hno.
    destruct (slot_is_available events cur slot_end) as [[|]|];
      try reflexivity; [congruence|].
    destruct (dt_add cur (30 * MINUTE)) as [next|] eqn:Hnext; [|reflexivity].
    apply IH. eapply turns_left; eassumption.
Qed.

Lemma slots_while_antitone_read small large busy busy' dur end_time n :
  busy_intervals small = Ok busy ->
  busy_intervals large = Ok busy' ->
  incl busy busy' ->
  forall cur acc acc',
    (end_time - dur * MINUTE - cur) / (30 * MINUTE) + 1 <= Z.of_nat n ->
    (List.length acc' <= List.length acc)%nat ->
    (List.length (or_empty (slots_while large dur end_time acc' cur))
     <= List.length (or_empty (slots_while small dur end_time acc cur)))%nat.
Proof.
  intros Hsmall Hlarge Hincl.
  induction n as [|n IH]; intros cur acc acc' Hn Hacc;
    rewrite !slots_while_turn, !while_body_eq;
    destruct (timedelta dur) as [delta|] eqn:Htd; try reflexivity;
    destruct (dt_add cur delta) as [slot_end|] eqn:Hend; try reflexivity.
  - now rewrite (no_turn_left _ _ _ _ _ Htd Hend Hn).
  - destruct (slot_end <=? end_time) eqn:Hle; [|assumption].
    rewrite (slot_is_available_free _ _ _ _ Hsmall),
            (slot_is_available_free _ _ _ _ Hlarge).
    destruct (dt_add cur (30 * MINUTE)) as [next|] eqn:Hnext; [|reflexivity].
    pose proof (free_incl busy busy' (mkInterval cur slot_end) Hincl) as Hfree.
    apply IH; [eapply turns_left; eassumption|].
    destruct (free busy' _); [rewrite Hfree by reflexivity|destruct (free busy _)];
      rewrite ?length_app; cbn; lia.
Qed.

(** C6: with more busy events the loop of [get_available_slots] never returns
    more slots, whatever the window and the duration; and so for the method
    on two answers of the service to the same request. *)
Theorem available_slots_antitone :
  (forall small large dur end_time start_time,
      incl small large ->
      (List.length (or_empty (slots_while large dur end_time [] start_time))
       <= List.length (or_empty (slots_while small dur end_time [] start_time)))%nat)
  /\ (forall date dur t0 w w' small large wa wb,
         strptime date "%Y-%m-%d" = Ok t0 ->
         events_list calendar_id
           (isoformat (naive (replace_time t0 9 0 0 0)) ++ "Z")
           (isoformat (naive (replace_time t0 17 0 0 0)) ++ "Z") w
         = (Ok small, wa) ->
         events_list calendar_id
           (isoformat (naive (replace_time t0 9 0 0 0)) ++ "Z")
           (isoformat (naive (replace_time t0 17 0 0 0)) ++ "Z") w'
         = (Ok large, wb) ->
         incl small large ->
         (List.length (or_empty (fst (get_available_slots date dur w')))
          <= List.length (or_empty (fst (get_available_slots date dur w))))%nat).
Proof.
  assert (forall small large dur end_time start_time,
      incl small large ->
      (List.length (or_empty (slots_while large dur end_time [] start_time))
       <= List.length (or_empty (slots_while small dur end_time [] start_time)))%nat)
    as Hloop.
  { intros small large dur end_time start_time Hincl.
    set (n := Z.to_nat ((end_time - dur * MINUTE - start_time)
                        / (30 * MINUTE) + 1)).
    destruct (busy_intervals large) as [busy'|e] eqn:Hlarge.
    - destruct (busy_intervals_incl small large busy' Hincl Hlarge)
        as (busy & Hsmall & Hsub).
      apply (slots_while_antitone_read small large busy busy' dur end_time n);
        try assumption; [unfold n; lia|reflexivity].
    - rewrite (slots_while_unread large e dur end_time n Hlarge);
        [cbn; lia|unfold n; lia]. }
  split; [exact Hloop|].
  intros date dur t0 w w' small large wa wb Hdate Hw Hw' Hincl.
  rewrite !(get_available_slots_listed _ _ _ _ Hdate), Hw, Hw'. cbn [fst].
  now apply Hloop.
Qed.

End Antitone.

Lemma available_slots_antitone_witness :
  let small := [busy_10_to_11] in
  let large := [busy_13_to_14; busy_10_to_11] in
  let timeMin := isoformat (naive (replace_time (on_2024_01_10 0 0) 9 0 0 0))
                 ++ "Z" in
  let timeMax := isoformat (naive (replace_time (on_2024_01_10 0 0) 17 0 0 0))
                 ++ "Z" in
  let w := world_of small noon_2024_06_01 in
  let w' := world_of large noon_2024_06_01 in
  (incl small large
   /\ strptime (PyLib := canonical_lib) "2024-01-10" "%Y-%m-%d"
      = Ok (on_2024_01_10 0 0)
   /\ events_list calendar_id timeMin timeMax w
      = (Ok small, snd (events_list calendar_id timeMin timeMax w))
   /\ events_list calendar_id timeMin timeMax w'
      = (Ok large, snd (events_list calendar_id timeMin timeMax w')))
  /\ (List.length (or_empty (slots_while (lib := canonical_lib) large
                               60 (on_2024_01_10 17 0) [] (on_2024_01_10 9 0)))
      <= List.length (or_empty (slots_while (lib := canonical_lib) small
                                  60 (on_2024_01_10 17 0) [] (on_2024_01_10 9 0))))%nat
  /\ (List.length (or_empty (fst (get_available_slots (lib := canonical_lib)
                                    "2024-01-10" 60 w')))
      <= List.length (or_empty (fst (get_available_slots (lib := canonical_lib)
                                       "2024-01-10" 60 w))))%nat.
Proof.
  intros small large timeMin timeMax w w'.
  assert (incl small large
          /\ strptime (PyLib := canonical_lib) "2024-01-10" "%Y-%m-%d"
             = Ok (on_2024_01_10 0 0)
          /\ events_list calendar_id timeMin timeMax w
             = (Ok small, snd (events_list calendar_id timeMin timeMax w))
          /\ events_list calendar_id timeMin timeMax w'
             = (Ok large, snd (events_list calendar_id timeMin timeMax w')))
    as Hyp.
  { split; [intros x [<-|[]]; right; now left|].
    repeat split; vm_compute; reflexivity. }
  split; [exact Hyp|].
  destruct Hyp as (H1 & H2 & H3 & H4).
  split.
  - exact (proj1 (available_slots_antitone (lib := canonical_lib))
             small large 60 (on_2024_01_10 17 0) (on_2024_01_10 9 0) H1).
  - exact (proj2 (available_slots_antitone (lib := canonical_lib))
             "2024-01-10" 60 (on_2024_01_10 0 0) w w' small large _ _
             H2 H3 H4 H1).
Defined.

(** ** No hidden state *)

Section Stateless.
Context {lib : PyLib}.

Lemma events_list_backend calendarId timeMin timeMax w :
  let w' := snd (events_list calendarId timeMin timeMax w) in
  calendar (backend w') = calendar (backend w)
  /\ next_id (backend w') = next_id (backend w)
  /\ refuses (backend w') = refuses (backend w)
  /\ select (backend w') = select (backend w)
  /\ clock w' = clock w
  /\ requests (backend w')
     = (requests (backend w) ++ [ListRequest calendarId timeMin timeMax])%list.
Proof.
  unfold events_list. destruct (refuses _ _ _); cbn; repeat split.
Qed.

Lemma get_available_slots_backend date dur w :
  let w' := snd (get_available_slots date dur w) in
  calendar (backend w') = calendar (backend w)
  /\ next_id (backend w') = next_id (backend w)
  /\ refuses (backend w') = refuses (backend w)
  /\ select (backend w') = select (backend w)
  /\ clock w' = clock w
  /\ (requests (backend w') = requests (backend w)
      \/ exists timeMin timeMax,
           requests (backend w')
           = (requests (backend w)
              ++ [ListRequest calendar_id timeMin timeMax])%list).
Proof.
  destruct (strptime date "%Y-%m-%d") as [t0|e] eqn:Hdate.
  - rewrite (get_available_slots_listed _ _ _ _ Hdate).
    match goal with
    | |- context [events_list ?c ?a ?b w] =>
        pose proof (events_list_backend c a b w) as Hlist;
        destruct (events_list c a b w) as [[events|e] w']
    end; cbn in *; intuition eauto.
  - rewrite (get_available_slots_bad_date _ _ _ _ Hdate). cbn. intuition.
Qed.

(** C7: [get_available_slots] has no state of its own.  Its result is the
    same in any two worlds where the service gives the same answer to a list
    request; the call changes nothing in the world but the log of requests
    the service has received; and a second call with the same arguments
    returns the same list, as long as the service answers a request the same
    way whatever it has received before. *)
Theorem get_available_slots_stateless :
  (forall date dur w1 w2,
      (forall timeMin timeMax,
          fst (events_list calendar_id timeMin timeMax w1)
          = fst (events_list calendar_id timeMin timeMax w2)) ->
      fst (get_available_slots date dur w1)
      = fst (get_available_slots date dur w2))
  /\ (forall date dur w,
         let w' := snd (get_available_slots date dur w) in
         calendar (backend w') = calendar (backend w)
         /\ next_id (backend w') = next_id (backend w)
         /\ refuses (backend w') = refuses (backend w)
         /\ select (backend w') = select (backend w)
         /\ clock w' = clock w)
  /\ (forall date dur w,
         (forall log log' req,
             refuses (backend w) log req = refuses (backend w) log' req) ->
         fst (get_available_slots date dur
                (snd (get_available_slots date dur w)))
         = fst (get_available_slots date dur w)).
Proof.
  assert (forall date dur w1 w2,
      (forall timeMin timeMax,
          fst (events_list calendar_id timeMin timeMax w1)
          = fst (events_list calendar_id timeMin timeMax w2)) ->
      fst (get_available_slots date dur w1)
      = fst (get_available_slots date dur w2)) as Hsame.
  { intros date dur w1 w2 Hanswer.
    destruct (strptime date "%Y-%m-%d") as [t0|e] eqn:Hdate.
    - rewrite !(get_available_slots_listed _ _ _ _ Hdate).
      match goal with
      | |- context [events_list ?c ?a ?b w1] =>
          specialize (Hanswer a b);
          destruct (events_list c a b w1) as [r1 w1'];
          destruct (events_list c a b w2) as [r2 w2']
      end.
      cbn in Hanswer. subst r2. now destruct r1.
    - now rewrite !(get_available_slots_bad_date _ _ _ _ Hdate). }
  split; [exact Hsame|split].
  - intros date dur w w'.
    pose proof (get_available_slots_backend date dur w) as H.
    cbv zeta in H. tauto.
  - intros date dur w Hsteady. apply Hsame. intros timeMin timeMax.
    destruct (get_available_slots_backend date dur w)
      as (Hcal & _ & Hrefuses & Hselect & _ & _).
    unfold events_list. cbn [fst].
    rewrite Hcal, Hrefuses, Hselect.
    rewrite (Hsteady _ (requests (backend w))).
    now destruct (refuses _ _ _).
Qed.

End Stateless.

Lemma get_available_slots_stateless_witness :
  let w := world_of [busy_10_to_11] noon_2024_06_01 in
  let later :=
    mkWorld (mkBackend [busy_10_to_11] 7
               [ListRequest calendar_id "2024-01-09T09:00:00Z"
                            "2024-01-09T17:00:00Z"]
               accept_all whole_calendar) (noon_2024_06_01 + DAY) in
  ((forall timeMin timeMax,
       fst (events_list calendar_id timeMin timeMax w)
       = fst (events_list calendar_id timeMin timeMax later))
   /\ (forall log log' req,
          refuses (backend w) log req = refuses (backend w) log' req))
  /\ fst (get_available_slots (lib := canonical_lib) "2024-01-10" 60 w)
     = fst (get_available_slots (lib := canonical_lib) "2024-01-10" 60 later)
  /\ fst (get_available_slots (lib := canonical_lib) "2024-01-10" 60
            (snd (get_available_slots (lib := canonical_lib)
                    "2024-01-10" 60 w)))
     = fst (get_available_slots (lib := canonical_lib) "2024-01-10" 60 w).
Proof.
  intros w later.
  assert ((forall timeMin timeMax,
              fst (events_list calendar_id timeMin timeMax w)
              = fst (events_list calendar_id timeMin timeMax later))
          /\ (forall log log' req,
                 refuses (backend w) log req = refuses (backend w) log' req))
    as Hyp.
  { split; reflexivity. }
  split; [exact Hyp|].
  destruct Hyp as [Hanswer Hsteady].
  split.
  - exact (proj1 (get_available_slots_stateless (lib := canonical_lib))
             "2024-01-10" 60 w later Hanswer).
  - exact (proj2 (proj2 (get_available_slots_stateless (lib := canonical_lib)))
             "2024-01-10" 60 w Hsteady).
Defined.

(** ** Booking *)

Section Booking.
Context {lib : PyLib}.




(** C10: when [get_available_slots] finds more than eight slots,
    [check_availability] lists the first eight, in order, and says nothing
    of the others. *)
Theorem check_availability_first_eight date_str w slots w' :
  get_available_slots date_str 60 w = (Ok slots, w') ->
  (8 < List.length slots)%nat ->
  check_availability date_str w
  = (Ok ("Available slots for " ++ date_str ++ ":" ++ String "010" ""
         ++ join (String "010" "") (map slot_line (firstn 8 slots))), w')
  /\ List.length (map slot_line (firstn 8 slots)) = 8%nat
  /\ (firstn 8 slots ++ skipn 8 slots)%list = slots
  /\ skipn 8 slots <> [].
Proof.
  intros Hslots Hmany. split; [|split; [|split]].
  - unfold check_availability, try_except, bind. rewrite Hslots.
    destruct slots; [cbn in Hmany; lia|reflexivity].
  - rewrite length_map, length_firstn. lia.
  - apply firstn_skipn.
  - intros Hnil. pose proof (length_skipn 8 slots) as Hlen.
    rewrite Hnil in Hlen. cbn in Hlen. lia.
Qed.

End Booking.


Lemma check_availability_first_eight_witness :
  let w := world_of [] noon_2024_06_01 in
  let out := get_available_slots (lib := canonical_lib) "2024-01-10" 60 w in
  (out = (Ok (or_empty (fst out)), snd out)
   /\ (8 < List.length (or_empty (fst out)))%nat)
  /\ fst (check_availability (lib := canonical_lib) "2024-01-10" w)
     = Ok ("Available slots for 2024-01-10:" ++ String "010" ""
           ++ join (String "010" "")
                ["09:00 - 10:00"; "09:30 - 10:30"; "10:00 - 11:00";
                 "10:30 - 11:30"; "11:00 - 12:00"; "11:30 - 12:30";
                 "12:00 - 13:00"; "12:30 - 13:30"]).
Proof.
  intros w out.
  assert (out = (Ok (or_empty (fst out)), snd out)
          /\ (8 < List.length (or_empty (fst out)))%nat) as Hyp.
  { split; vm_compute; [reflexivity|]. repeat constructor. }
  split; [exact Hyp|].
  destruct Hyp as [H1 H2].
  rewrite (proj1 (check_availability_first_eight (lib := canonical_lib)
                    "2024-01-10" w (or_empty (fst out)) (snd out) H1 H2)).
  vm_compute. reflexivity.
Defined.

(** ** What [book_appointment] does not check *)

Section Unchecked.
Context {lib : PyLib}.

(** A request that can be read reaches the service, and the service
    decides. *)
Lemma book_appointment_sends title date time duration w
    start_datetime duration_minutes start_time delta end_time :
  strptime (date ++ " " ++ time) "%Y-%m-%d %H:%M" = Ok start_datetime ->
  py_int duration = Ok duration_minutes ->
  fromisoformat (isoformat (naive start_datetime)) = Ok start_time ->
  timedelta duration_minutes = Ok delta ->
  datetime_add start_time delta = Ok end_time ->
  let req := insert_request title "" start_time end_time in
  let out := book_appointment title date time duration w in
  requests_after out = (requests (backend w) ++ [req])%list
  /\ match refuses (backend w) (requests (backend w)) req with
     | None =>
         fst out = Ok ("✅ Appointment '" ++ title
                       ++ "' booked successfully for " ++ date
                       ++ " at " ++ time ++ "!")
         /\ exists ev, calendar_after out = (calendar (backend w) ++ [ev])%list
                       /\ start ev = Some (mkEventTime
                                             (Some (isoformat start_time))
                                             None (Some "UTC"))
                       /\ end_ ev = Some (mkEventTime
                                            (Some (isoformat end_time))
                                            None (Some "UTC"))
     | Some e =>
         fst out = Ok ("❌ Failed to book appointment: "
                       ++ "Failed to create event: " ++ str e)
         /\ calendar_after out = calendar (backend w)
     end.
Proof.
  intros Hstart Hint Hiso Hdelta Hend req out.
  unfold out, book_appointment, create_event, try_except, bind, lift, ret,
    requests_after, calendar_after.
  rewrite Hstart, Hint, Hiso, Hdelta, Hend.
  unfold events_insert. fold (insert_request title "" start_time end_time).
  fold req.
  destruct (refuses _ _ req) as [e|]; cbn.
  - repeat split.
  - repeat split. eexists. repeat split.
Qed.

(** C2, as the code has it: [book_appointment] never reads the calendar.
    Whatever events the service already holds, a request that can be read and
    that the service accepts is booked, and the calendar holds exactly one
    more event. *)
Theorem book_appointment_ignores_calendar title date time duration w
    start_datetime duration_minutes start_time delta end_time :
  strptime (date ++ " " ++ time) "%Y-%m-%d %H:%M" = Ok start_datetime ->
  py_int duration = Ok duration_minutes ->
  fromisoformat (isoformat (naive start_datetime)) = Ok start_time ->
  timedelta duration_minutes = Ok delta ->
  datetime_add start_time delta = Ok end_time ->
  refuses (backend w) (requests (backend w))
          (insert_request title "" start_time end_time) = None ->
  let out := book_appointment title date time duration w in
  fst out = Ok ("✅ Appointment '" ++ title ++ "' booked successfully for "
                ++ date ++ " at " ++ time ++ "!")
  /\ List.length (calendar_after out) = S (List.length (calendar (backend w)))
  /\ firstn (List.length (calendar (backend w))) (calendar_after out)
     = calendar (backend w).
Proof.
  intros Hstart Hint Hiso Hdelta Hend Haccepts out.
  destruct (book_appointment_sends title date time duration w _ _ _ _ _
              Hstart Hint Hiso Hdelta Hend) as [_ Hout].
  rewrite Haccepts in Hout. destruct Hout as (Hmsg & ev & Hcal & _).
  fold out in Hmsg, Hcal. rewrite Hcal. split; [exact Hmsg|split].
  - rewrite length_app. cbn. lia.
  - rewrite firstn_app, Nat.sub_diag, firstn_all. cbn. apply app_nil_r.
Qed.

(** C3, as the code has it: [book_appointment] checks that the date and the
    time match their format, that the duration is an integer, and that the
    end is a representable datetime, and nothing else.  It compares the start
    neither with the end nor with the clock: for every duration, positive or
    not, and every clock, the request from the start to the start plus the
    duration is sent to the service once, and the answer of the service
    alone decides between success and failure. *)
Theorem book_appointment_sends_unvalidated title date time duration b now
    start_datetime duration_minutes start_time end_time :
  strptime (date ++ " " ++ time) "%Y-%m-%d %H:%M" = Ok start_datetime ->
  py_int duration = Ok duration_minutes ->
  fromisoformat (isoformat (naive start_datetime)) = Ok start_time ->
  datetime_add start_time (duration_minutes * MINUTE) = Ok end_time ->
  -999999999 <= duration_minutes / 1440 <= 999999999 ->
  let req := insert_request title "" start_time end_time in
  let out := book_appointment title date time duration (mkWorld b now) in
  wall end_time = wall start_time + duration_minutes * MINUTE
  /\ requests_after out = (requests b ++ [req])%list
  /\ fst out
     = match refuses b (requests b) req with
       | None => Ok ("✅ Appointment '" ++ title
                     ++ "' booked successfully for " ++ date
                     ++ " at " ++ time ++ "!")
       | Some e => Ok ("❌ Failed to book appointment: "
                       ++ "Failed to create event: " ++ str e)
       end.
Proof.
  intros Hstart Hint Hiso Hend Hdur req out.
  pose proof (timedelta_small _ Hdur) as Hdelta.
  destruct (book_appointment_sends title date time duration (mkWorld b now)
              _ _ _ _ _ Hstart Hint Hiso Hdelta Hend) as [Hreq Hout].
  fold req in Hreq, Hout. fold out in Hreq, Hout. cbn in Hreq, Hout.
  split; [|split; [exact Hreq|]].
  - unfold datetime_add, rbind in Hend.
    destruct (dt_add _ _) as [t|] eqn:Hadd; [|discriminate].
    injection Hend as <-. cbn. now apply dt_add_value in Hadd.
  - destruct (refuses b (requests b) req); tauto.
Qed.

End Unchecked.

Lemma book_appointment_ignores_calendar_witness :
  let w := world_of [busy_10_to_11] noon_2024_06_01 in
  let start_time := naive (on_2024_01_10 10 0) in
  let end_time := naive (on_2024_01_10 10 30) in
  let out := book_appointment (lib := canonical_lib)
               "Standup" "2024-01-10" "10:00" "30" w in
  (strptime (PyLib := canonical_lib) ("2024-01-10" ++ " " ++ "10:00")
            "%Y-%m-%d %H:%M" = Ok (on_2024_01_10 10 0)
   /\ py_int (PyLib := canonical_lib) "30" = Ok 30
   /\ fromisoformat (PyLib := canonical_lib)
        (isoformat (naive (on_2024_01_10 10 0))) = Ok start_time
   /\ timedelta 30 = Ok (30 * MINUTE)
   /\ datetime_add start_time (30 * MINUTE) = Ok end_time
   /\ refuses (backend w) (requests (backend w))
              (insert_request "Standup" "" start_time end_time) = None)
  /\ fst out = Ok ("✅ Appointment 'Standup' booked successfully for "
                   ++ "2024-01-10 at 10:00!")
  /\ List.length (calendar_after out) = 2%nat.
Proof.
  intros w start_time end_time out.
  assert (strptime (PyLib := canonical_lib) ("2024-01-10" ++ " " ++ "10:00")
                   "%Y-%m-%d %H:%M" = Ok (on_2024_01_10 10 0)
          /\ py_int (PyLib := canonical_lib) "30" = Ok 30
          /\ fromisoformat (PyLib := canonical_lib)
               (isoformat (naive (on_2024_01_10 10 0))) = Ok start_time
          /\ timedelta 30 = Ok (30 * MINUTE)
          /\ datetime_add start_time (30 * MINUTE) = Ok end_time
          /\ refuses (backend w) (requests (backend w))
                     (insert_request "Standup" "" start_time end_time) = None)
    as Hyp.
  { repeat split; vm_compute; reflexivity. }
  split; [exact Hyp|].
  destruct Hyp as (H1 & H2 & H3 & H4 & H5 & H6).
  destruct (book_appointment_ignores_calendar (lib := canonical_lib)
              "Standup" "2024-01-10" "10:00" "30" w _ _ _ _ _
              H1 H2 H3 H4 H5 H6) as (Hmsg & Hlen & _).
  split; [exact Hmsg|exact Hlen].
Defined.

(** Against C2 as stated: on 2024-01-10 the calendar holds an event from
    10:00 to 11:00, [get_available_slots] offers no slot that starts at
    10:00, and yet booking 10:00 for 30 minutes succeeds and the calendar
    then holds two events. *)
Lemma booking_into_busy_slot_succeeds :
  let w := world_of [busy_10_to_11] noon_2024_06_01 in
  let out := book_appointment (lib := canonical_lib)
               "Standup" "2024-01-10" "10:00" "30" w in
  busy_intervals (lib := canonical_lib) (calendar (backend w))
  = Ok [Spec.mkInterval (on_2024_01_10 10 0) (on_2024_01_10 11 0)]
  /\ Spec.overlaps
       (Spec.mkInterval (on_2024_01_10 10 0) (on_2024_01_10 10 30))
       (Spec.mkInterval (on_2024_01_10 10 0) (on_2024_01_10 11 0)) = true
  /\ existsb (String.eqb "10:00")
       (map slot_start_time
          (or_empty (fst (get_available_slots (lib := canonical_lib)
                            "2024-01-10" 30 w)))) = false
  /\ fst out = Ok ("✅ Appointment 'Standup' booked successfully for "
                   ++ "2024-01-10 at 10:00!")
  /\ map id (calendar_after out) = ["evt0"; "evt1"].
Proof. vm_compute. repeat split. Qed.

Lemma book_appointment_sends_unvalidated_witness :
  let b := backend (world_of [] noon_2024_06_01) in
  let start_time := naive (on_2024_01_10 10 0) in
  let end_time := naive (on_2024_01_10 9 30) in
  let out := book_appointment (lib := canonical_lib)
               "Standup" "2024-01-10" "10:00" "-30"
               (mkWorld b noon_2024_06_01) in
  (strptime (PyLib := canonical_lib) ("2024-01-10" ++ " " ++ "10:00")
            "%Y-%m-%d %H:%M" = Ok (on_2024_01_10 10 0)
   /\ py_int (PyLib := canonical_lib) "-30" = Ok (-30)
   /\ fromisoformat (PyLib := canonical_lib)
        (isoformat (naive (on_2024_01_10 10 0))) = Ok start_time
   /\ datetime_add start_time (-30 * MINUTE) = Ok end_time
   /\ -999999999 <= -30 / 1440 <= 999999999)
  /\ requests_after out
     = [insert_request "Standup" "" start_time end_time].
Proof.
  intros b start_time end_time out.
  assert (strptime (PyLib := canonical_lib) ("2024-01-10" ++ " " ++ "10:00")
                   "%Y-%m-%d %H:%M" = Ok (on_2024_01_10 10 0)
          /\ py_int (PyLib := canonical_lib) "-30" = Ok (-30)
          /\ fromisoformat (PyLib := canonical_lib)
               (isoformat (naive (on_2024_01_10 10 0))) = Ok start_time
          /\ datetime_add start_time (-30 * MINUTE) = Ok end_time
          /\ -999999999 <= -30 / 1440 <= 999999999) as Hyp.
  { repeat split; vm_compute; congruence. }
  split; [exact Hyp|].
  destruct Hyp as (H1 & H2 & H3 & H4 & H5).
  destruct (book_appointment_sends_unvalidated (lib := canonical_lib)
              "Standup" "2024-01-10" "10:00" "-30" b noon_2024_06_01 _ _ _ _
              H1 H2 H3 H4 H5) as (_ & Hreq & _).
  exact Hreq.
Defined.

(** Against C3 as stated: at noon on 2024-06-01, booking 2024-01-10 10:00,
    a start in the past, succeeds and creates an event; and for a duration
    of -30 minutes an event that ends at 09:30, before its start at 10:00,
    is constructed and sent to the service. *)
Lemma booking_unvalidated_request_succeeds :
  let w := world_of [] noon_2024_06_01 in
  let past := book_appointment (lib := canonical_lib)
                "Standup" "2024-01-10" "10:00" "30" w in
  let backwards := book_appointment (lib := canonical_lib)
                     "Standup" "2024-01-10" "10:00" "-30" w in
  on_2024_01_10 10 0 < clock w
  /\ fst past = Ok ("✅ Appointment 'Standup' booked successfully for "
                    ++ "2024-01-10 at 10:00!")
  /\ map id (calendar_after past) = ["evt0"]
  /\ requests_after backwards
     = [InsertRequest "primary"
          (mkEventBody "Standup" ""
             (mkEventTime (Some "2024-01-10T10:00:00") None (Some "UTC"))
             (mkEventTime (Some "2024-01-10T09:30:00") None (Some "UTC")))].
Proof. vm_compute. repeat split. Qed.

(** * Further properties of the availability loop *)

Section LoopProperties.
Context {lib : PyLib}.
Import Spec.

(** Two lists of events that leave the same candidates free give the same
    run of the loop. *)
Lemma slots_while_same_free events events' busy busy' dur end_time start_time n :
  busy_intervals events = Ok busy ->
  busy_intervals events' = Ok busy' ->
  (forall cur,
      start_time <= cur -> cur + dur * MINUTE <= end_time ->
      free busy (mkInterval cur (cur + dur * MINUTE))
      = free busy' (mkInterval cur (cur + dur * MINUTE))) ->
  forall cur acc,
    start_time <= cur ->
    (end_time - dur * MINUTE - cur) / (30 * MINUTE) + 1 <= Z.of_nat n ->
    slots_while events dur end_time acc cur
    = slots_while events' dur end_time acc cur.
Proof.
  intros Hbusy Hbusy' Hfree.
  assert (0 < 30 * MINUTE) as Hstep by (ticks; lia).
  induction n as [|n IH]; intros cur acc Hcur Hn;
    rewrite !slots_while_turn, !while_body_eq;
    destruct (timedelta dur) as [delta|] eqn:Htd; try reflexivity;
    destruct (dt_add cur delta) as [slot_end|] eqn:Hend; try reflexivity.
  - now rewrite (no_turn_left _ _ _ _ _ Htd Hend Hn).
  - destruct (slot_end <=? end_time) eqn:Hle; [|reflexivity].
    rewrite (slot_is_available_free _ _ _ _ Hbusy),
            (slot_is_available_free _ _ _ _ Hbusy').
    pose proof (timedelta_value _ _ Htd) as Hdelta.
    pose proof (dt_add_value _ _ _ Hend) as Hslot. subst delta slot_end.
    rewrite Hfree by (assumption || (apply Z.leb_le; assumption)).
    destruct (dt_add cur (30 * MINUTE)) as [next|] eqn:Hnext; [|reflexivity].
    apply IH.
    + apply dt_add_value in Hnext. lia.
    + eapply turns_left; eassumption.
Qed.

Lemma free_same_elements busy busy' c :
  (forall b, In b busy <-> In b busy') -> free busy c = free busy' c.
Proof.
  intros Hsame. unfold free.
  destruct (forallb _ busy') eqn:H'.
  - rewrite forallb_forall in *. intros b Hb. apply H', Hsame, Hb.
  - destruct (forallb _ busy) eqn:H; [|reflexivity].
    rewrite forallb_forall in H.
    assert (forallb (fun b => negb (overlaps c b)) busy' = true) as Habs.
    { apply forallb_forall. intros b Hb. apply H, Hsame, Hb. }
    congruence.
Qed.

(** X4: the loop of [get_available_slots] sees the events only through the
    set of intervals read at lines 63-68, the wall-clock readings left once
    tzinfo is removed: two lists of events with the same set of such
    intervals, in any order and with any repetition, give the same result,
    whatever UTC offsets the events carry. *)
Theorem slots_depend_on_wall_clock_intervals events events' busy busy'
    dur end_time start_time :
  busy_intervals events = Ok busy ->
  busy_intervals events' = Ok busy' ->
  (forall b, In b busy <-> In b busy') ->
  slots_while events dur end_time [] start_time
  = slots_while events' dur end_time [] start_time.
Proof.
  intros Hbusy Hbusy' Hsame.
  apply (slots_while_same_free events events' busy busy' dur end_time
           start_time
           (Z.to_nat ((end_time - dur * MINUTE - start_time)
                      / (30 * MINUTE) + 1)) Hbusy Hbusy'); try lia.
  intros cur _ _. now apply free_same_elements.
Qed.

(** X5: an event that ends at or before the opening time, or starts at or
    after the closing time, never removes a slot: the result is the same
    with and without such events. *)
Theorem events_outside_window_ignored events events' busy busy'
    dur end_time start_time :
  busy_intervals events = Ok busy ->
  busy_intervals events' = Ok busy' ->
  incl busy busy' ->
  (forall b, In b busy' ->
             In b busy \/ iend b <= start_time \/ end_time <= istart b) ->
  slots_while events' dur end_time [] start_time
  = slots_while events dur end_time [] start_time.
Proof.
  intros Hbusy Hbusy' Hincl Hout.
  apply (slots_while_same_free events' events busy' busy dur end_time
           start_time
           (Z.to_nat ((end_time - dur * MINUTE - start_time)
                      / (30 * MINUTE) + 1)) Hbusy' Hbusy); try lia.
  intros cur Hcur Hfit. unfold free.
  destruct (forallb _ busy') eqn:H'.
  - symmetry. rewrite forallb_forall in *. intros b Hb. apply H', Hincl, Hb.
  - destruct (forallb _ busy) eqn:H; [|reflexivity].
    rewrite forallb_forall in H.
    assert (forallb (fun b => negb (overlaps (mkInterval cur (cur + dur * MINUTE)) b))
                    busy' = true) as Habs; [|congruence].
    apply forallb_forall. intros b Hb.
    destruct (Hout b Hb) as [Hin|[Hbefore|Hafter]]; [now apply H| |];
      unfold overlaps; cbn.
    + assert ((cur <? iend b) = false) as -> by (apply Z.ltb_ge; lia).
      reflexivity.
    + assert ((istart b <? cur + dur * MINUTE) = false) as ->
        by (apply Z.ltb_ge; lia).
      now rewrite andb_false_r.
Qed.

(** When no candidate of the window is available, nothing is returned. *)
Lemma slots_while_none_available events dur end_time start_time n :
  (forall cur,
      start_time <= cur -> cur + dur * MINUTE <= end_time ->
      slot_is_available events cur (cur + dur * MINUTE) <> Ok true) ->
  forall cur,
    start_time <= cur ->
    (end_time - dur * MINUTE - cur) / (30 * MINUTE) + 1 <= Z.of_nat n ->
    or_empty (slots_while events dur end_time [] cur) = [].
Proof.
  intros Hnone.
  assert (0 < 30 * MINUTE) as Hstep by (ticks; lia).
  induction n as [|n IH]; intros cur Hcur Hn;
    rewrite slots_while_turn, while_body_eq;
    destruct (timedelta dur) as [delta|] eqn:Htd; try reflexivity;
    destruct (dt_add cur delta) as [slot_end|] eqn:Hend; try reflexivity.
  - now rewrite (no_turn_left _ _ _ _ _ Htd Hend Hn).
  - destruct (slot_end <=? end_time) eqn:Hle; [|reflexivity].
    pose proof (timedelta_value _ _ Htd) as Hdelta.
    pose proof (dt_add_value _ _ _ Hend) as Hslot.
    assert (slot_is_available events cur slot_end <> Ok true) as Hno.
    { subst delta slot_end. apply Hnone; [assumption|now apply Z.leb_le]. }
    destruct (slot_is_available events cur slot_end) as [[|]|];
      try reflexivity; [congruence|].
    destruct (dt_add cur (30 * MINUTE)) as [next|] eqn:Hnext; [|reflexivity].
    apply IH.
    + apply dt_add_value in Hnext. lia.
    + eapply turns_left; eassumption.
Qed.

(** The loop returns at most one slot for each turn it can take. *)
Lemma slots_while_length events dur end_time n :
  forall cur acc,
    (end_time - dur * MINUTE - cur) / (30 * MINUTE) + 1 <= Z.of_nat n ->
    (List.length (or_empty (slots_while events dur end_time acc cur))
     <= List.length acc + n)%nat.
Proof.
  induction n as [|n IH]; intros cur acc Hn;
    rewrite slots_while_turn, while_body_eq;
    destruct (timedelta dur) as [delta|] eqn:Htd; try (cbn; lia);
    destruct (dt_add cur delta) as [slot_end|] eqn:Hend; try (cbn; lia).
  - rewrite (no_turn_left _ _ _ _ _ Htd Hend Hn). cbn. lia.
  - destruct (slot_end <=? end_time) eqn:Hle; [|cbn; lia].
    destruct (slot_is_available events cur slot_end) as [avail|];
      [|cbn; lia].
    destruct (dt_add cur (30 * MINUTE)) as [next|] eqn:Hnext; [|cbn; lia].
    pose proof (turns_left _ _ _ _ _ _ _ Htd Hend Hle Hnext Hn) as Hnext_turns.
    destruct avail.
    + specialize (IH next (acc ++ [slot_dict cur slot_end])%list Hnext_turns).
      rewrite length_app in IH. cbn in IH. lia.
    + specialize (IH next acc Hnext_turns). lia.
Qed.

End LoopProperties.

Section MethodProperties.
Context {lib : PyLib}.
Import Spec.

(** X1: one event whose start or end cannot be read makes
    [get_available_slots] return no slot at all, wherever that event lies
    and however free the day is: the exception is caught and [[]] is
    returned. *)
Theorem unreadable_event_hides_all_slots date dur w t0 events w' e :
  strptime date "%Y-%m-%d" = Ok t0 ->
  events_list calendar_id
    (isoformat (naive (replace_time t0 9 0 0 0)) ++ "Z")
    (isoformat (naive (replace_time t0 17 0 0 0)) ++ "Z") w
  = (Ok events, w') ->
  busy_intervals events = Raise e ->
  get_available_slots date dur w = (Ok [], w').
Proof.
  intros Hdate Hlist Hbusy.
  rewrite (get_available_slots_listed _ _ _ _ Hdate), Hlist.
  rewrite (slots_while_unread events e dur _
             (Z.to_nat ((replace_time t0 17 0 0 0 - dur * MINUTE
                         - replace_time t0 9 0 0 0) / (30 * MINUTE) + 1))
             Hbusy); [reflexivity|lia].
Qed.

(** X2: an event that covers the working window, such as an all-day event,
    leaves no slot of a positive duration. *)
Theorem covering_event_leaves_no_slot date dur w t0 events w' event b :
  strptime date "%Y-%m-%d" = Ok t0 ->
  events_list calendar_id
    (isoformat (naive (replace_time t0 9 0 0 0)) ++ "Z")
    (isoformat (naive (replace_time t0 17 0 0 0)) ++ "Z") w
  = (Ok events, w') ->
  In event events ->
  event_interval event = Ok b ->
  istart b <= replace_time t0 9 0 0 0 ->
  replace_time t0 17 0 0 0 <= iend b ->
  0 < dur ->
  get_available_slots date dur w = (Ok [], w').
Proof.
  intros Hdate Hlist Hin Hb Hstart Hend Hdur.
  rewrite (get_available_slots_listed _ _ _ _ Hdate), Hlist.
  destruct (busy_intervals events) as [busy|e] eqn:Hbusy.
  2:{ rewrite (slots_while_unread events e dur _
                 (Z.to_nat ((replace_time t0 17 0 0 0 - dur * MINUTE
                             - replace_time t0 9 0 0 0) / (30 * MINUTE) + 1))
                 Hbusy); [reflexivity|lia]. }
  destruct (busy_intervals_In events busy event Hbusy Hin) as (b' & Hb' & Hinb).
  assert (b' = b) by congruence. subst b'.
  assert (0 < dur * MINUTE) as Hpos by (ticks; lia).
  rewrite (slots_while_none_available events dur _ (replace_time t0 9 0 0 0)
             (Z.to_nat ((replace_time t0 17 0 0 0 - dur * MINUTE
                         - replace_time t0 9 0 0 0) / (30 * MINUTE) + 1)));
    [reflexivity| |lia|lia].
  intros cur Hcur Hfit.
  rewrite (slot_is_available_free _ _ _ _ Hbusy).
  assert (free busy (mkInterval cur (cur + dur * MINUTE)) = false) as ->;
    [|discriminate].
  unfold free.
  destruct (forallb _ busy) eqn:Hfree; [|reflexivity].
  rewrite forallb_forall in Hfree. specialize (Hfree b Hinb).
  unfold overlaps in Hfree. cbn in Hfree.
  assert ((cur <? iend b) = true) as H1 by (apply Z.ltb_lt; lia).
  assert ((istart b <? cur + dur * MINUTE) = true) as H2
    by (apply Z.ltb_lt; lia).
  rewrite H1, H2 in Hfree. discriminate.
Qed.

(** X3: [get_available_slots] returns at most [(480 - duration) / 30 + 1]
    slots, whatever the date, the events and the service do; with the
    duration of 60 minutes that [check_availability] uses, at most 15. *)
Theorem slot_count_bound date dur w :
  (List.length (or_empty (fst (get_available_slots date dur w)))
   <= Z.to_nat ((480 - dur) / 30 + 1))%nat
  /\ (List.length (or_empty (fst (get_available_slots date 60 w))) <= 15)%nat.
Proof.
  assert (forall d,
             (List.length (or_empty (fst (get_available_slots date d w)))
              <= Z.to_nat ((480 - d) / 30 + 1))%nat) as Hbound.
  { intros d.
    destruct (strptime date "%Y-%m-%d") as [t0|e] eqn:Hdate.
    - rewrite (get_available_slots_listed _ _ _ _ Hdate).
      destruct (events_list _ _ _ w) as [[events|e] w']; [|cbn; lia].
      cbn [fst or_empty].
      apply (slots_while_length events d (replace_time t0 17 0 0 0)
               (Z.to_nat ((480 - d) / 30 + 1)) (replace_time t0 9 0 0 0) []).
      unfold replace_time. ticks. div_lia.
    - rewrite (get_available_slots_bad_date _ _ _ _ Hdate). cbn. lia. }
  split; [apply Hbound|apply (Hbound 60)].
Qed.

End MethodProperties.

Lemma unreadable_event_hides_all_slots_witness :
  let w := world_of [event_without_end] noon_2024_06_01 in
  let t0 := on_2024_01_10 0 0 in
  let timeMin := isoformat (naive (replace_time t0 9 0 0 0)) ++ "Z" in
  let timeMax := isoformat (naive (replace_time t0 17 0 0 0)) ++ "Z" in
  let w' := snd (events_list calendar_id timeMin timeMax w) in
  (strptime (PyLib := canonical_lib) "2024-01-10" "%Y-%m-%d" = Ok t0
   /\ events_list calendar_id timeMin timeMax w = (Ok [event_without_end], w')
   /\ busy_intervals (lib := canonical_lib) [event_without_end]
      = Raise (KeyError "'end'"))
  /\ get_available_slots (lib := canonical_lib) "2024-01-10" 60 w = (Ok [], w').
Proof.
  intros w t0 timeMin timeMax w'.
  assert (strptime (PyLib := canonical_lib) "2024-01-10" "%Y-%m-%d" = Ok t0
          /\ events_list calendar_id timeMin timeMax w
             = (Ok [event_without_end], w')
          /\ busy_intervals (lib := canonical_lib) [event_without_end]
             = Raise (KeyError "'end'")) as Hyp.
  { repeat split; vm_compute; reflexivity. }
  split; [exact Hyp|].
  destruct Hyp as (H1 & H2 & H3).
  exact (unreadable_event_hides_all_slots (lib := canonical_lib)
           "2024-01-10" 60 w t0 _ w' _ H1 H2 H3).
Defined.

Lemma covering_event_leaves_no_slot_witness :
  let w := world_of [all_day_event] noon_2024_06_01 in
  let t0 := on_2024_01_10 0 0 in
  let timeMin := isoformat (naive (replace_time t0 9 0 0 0)) ++ "Z" in
  let timeMax := isoformat (naive (replace_time t0 17 0 0 0)) ++ "Z" in
  let w' := snd (events_list calendar_id timeMin timeMax w) in
  let b := Spec.mkInterval t0 (t0 + DAY) in
  (strptime (PyLib := canonical_lib) "2024-01-10" "%Y-%m-%d" = Ok t0
   /\ events_list calendar_id timeMin timeMax w = (Ok [all_day_event], w')
   /\ In all_day_event [all_day_event]
   /\ event_interval (lib := canonical_lib) all_day_event = Ok b
   /\ Spec.istart b <= replace_time t0 9 0 0 0
   /\ replace_time t0 17 0 0 0 <= Spec.iend b
   /\ 0 < 60)
  /\ get_available_slots (lib := canonical_lib) "2024-01-10" 60 w = (Ok [], w').
Proof.
  intros w t0 timeMin timeMax w' b.
  assert (strptime (PyLib := canonical_lib) "2024-01-10" "%Y-%m-%d" = Ok t0
          /\ events_list calendar_id timeMin timeMax w
             = (Ok [all_day_event], w')
          /\ In all_day_event [all_day_event]
          /\ event_interval (lib := canonical_lib) all_day_event = Ok b
          /\ Spec.istart b <= replace_time t0 9 0 0 0
          /\ replace_time t0 17 0 0 0 <= Spec.iend b
          /\ 0 < 60) as Hyp.
  { split; [|split; [|split; [now left|]]]; repeat split; vm_compute;
      congruence. }
  split; [exact Hyp|].
  destruct Hyp as (H1 & H2 & H3 & H4 & H5 & H6 & H7).
  exact (covering_event_leaves_no_slot (lib := canonical_lib)
           "2024-01-10" 60 w t0 _ w' _ b H1 H2 H3 H4 H5 H6 H7).
Defined.

Lemma slots_depend_on_wall_clock_intervals_witness :
  let events := [busy_13_to_14; busy_10_to_11] in
  let events' :=
    [busy_10_to_11;
     mkEvent "evt5" None (Some "Lunch") None
       (Some (mkEventTime (Some "2024-01-10T13:00:00-08:00") None None))
       (Some (mkEventTime (Some "2024-01-10T14:00:00-08:00") None None));
     busy_10_to_11] in
  let busy := [Spec.mkInterval (on_2024_01_10 13 0) (on_2024_01_10 14 0);
               Spec.mkInterval (on_2024_01_10 10 0) (on_2024_01_10 11 0)] in
  let busy' := [Spec.mkInterval (on_2024_01_10 10 0) (on_2024_01_10 11 0);
                Spec.mkInterval (on_2024_01_10 13 0) (on_2024_01_10 14 0);
                Spec.mkInterval (on_2024_01_10 10 0) (on_2024_01_10 11 0)] in
  (busy_intervals (lib := canonical_lib) events = Ok busy
   /\ busy_intervals (lib := canonical_lib) events' = Ok busy'
   /\ (forall b, In b busy <-> In b busy'))
  /\ slots_while (lib := canonical_lib) events 60 (on_2024_01_10 17 0) []
                 (on_2024_01_10 9 0)
     = slots_while (lib := canonical_lib) events' 60 (on_2024_01_10 17 0) []
                   (on_2024_01_10 9 0).
Proof.
  intros events events' busy busy'.
  assert (busy_intervals (lib := canonical_lib) events = Ok busy
          /\ busy_intervals (lib := canonical_lib) events' = Ok busy'
          /\ (forall b, In b busy <-> In b busy')) as Hyp.
  { split; [vm_compute; reflexivity|split; [vm_compute; reflexivity|]].
    intros b. unfold busy, busy'. cbn [In]. tauto. }
  split; [exact Hyp|].
  destruct Hyp as (H1 & H2 & H3).
  exact (slots_depend_on_wall_clock_intervals (lib := canonical_lib)
           events events' busy busy' 60 _ _ H1 H2 H3).
Defined.

Lemma events_outside_window_ignored_witness :
  let evening :=
    mkEvent "evt6" None (Some "Dinner") None
      (Some (mkEventTime (Some "2024-01-10T17:00:00Z") None None))
      (Some (mkEventTime (Some "2024-01-10T19:00:00Z") None None)) in
  let events := [busy_10_to_11] in
  let events' := [evening; busy_10_to_11] in
  let busy := [Spec.mkInterval (on_2024_01_10 10 0) (on_2024_01_10 11 0)] in
  let busy' := [Spec.mkInterval (on_2024_01_10 17 0) (on_2024_01_10 19 0);
                Spec.mkInterval (on_2024_01_10 10 0) (on_2024_01_10 11 0)] in
  (busy_intervals (lib := canonical_lib) events = Ok busy
   /\ busy_intervals (lib := canonical_lib) events' = Ok busy'
   /\ incl busy busy'
   /\ (forall b, In b busy' ->
                 In b busy \/ Spec.iend b <= on_2024_01_10 9 0
                 \/ on_2024_01_10 17 0 <= Spec.istart b))
  /\ slots_while (lib := canonical_lib) events' 60 (on_2024_01_10 17 0) []
                 (on_2024_01_10 9 0)
     = slots_while (lib := canonical_lib) events 60 (on_2024_01_10 17 0) []
                   (on_2024_01_10 9 0).
Proof.
  intros evening events events' busy busy'.
  assert (busy_intervals (lib := canonical_lib) events = Ok busy
          /\ busy_intervals (lib := canonical_lib) events' = Ok busy'
          /\ incl busy busy'
          /\ (forall b, In b busy' ->
                        In b busy \/ Spec.iend b <= on_2024_01_10 9 0
                        \/ on_2024_01_10 17 0 <= Spec.istart b)) as Hyp.
  { split; [vm_compute; reflexivity|split; [vm_compute; reflexivity|split]].
    - intros b Hb. now right.
    - intros b [<-|Hb]; [|now left].
      right. right. vm_compute. congruence. }
  split; [exact Hyp|].
  destruct Hyp as (H1 & H2 & H3 & H4).
  exact (events_outside_window_ignored (lib := canonical_lib)
           events events' busy busy' 60 _ _ H1 H2 H3 H4).
Defined.

(** * [get_events] and [get_events_for_date] *)

Lemma append_nil_r (s : string) : s ++ "" = s.
Proof. induction s as [|c s IH]; cbn; [reflexivity|now rewrite IH]. Qed.

(** The ISO text of a datetime whose time of day was set by [replace]. *)
Lemma isoformat_time_of_day t x :
  0 <= x < DAY ->
  isoformat (naive (t / DAY * DAY + x)) = format_date t ++ "T" ++ format_time x.
Proof.
  intros Hx. unfold isoformat, format_date, format_time. cbn [wall tzinfo naive].
  assert ((t / DAY * DAY + x) / DAY = t / DAY) as ->.
  { rewrite Z.add_comm, Z.div_add by (ticks; lia).
    rewrite Z.div_small by assumption. reflexivity. }
  assert ((t / DAY * DAY + x) mod DAY = x mod DAY) as ->.
  { rewrite Z.add_comm. apply Z.mod_add. ticks. lia. }
  assert ((t / DAY * DAY + x) mod HOUR = x mod HOUR) as ->.
  { replace (t / DAY * DAY + x) with (x + (t / DAY * 24) * HOUR)
      by (ticks; lia).
    apply Z.mod_add. ticks. lia. }
  assert ((t / DAY * DAY + x) mod MINUTE = x mod MINUTE) as ->.
  { replace (t / DAY * DAY + x) with (x + (t / DAY * 1440) * MINUTE)
      by (ticks; lia).
    apply Z.mod_add. ticks. lia. }
  assert ((t / DAY * DAY + x) mod 1000000 = x mod 1000000) as ->.
  { replace (t / DAY * DAY + x) with (x + (t / DAY * 86400) * 1000000)
      by (ticks; lia).
    apply Z.mod_add. lia. }
  now rewrite append_nil_r.
Qed.

Lemma isoformat_replace_time t h m s us :
  0 <= h * HOUR + m * MINUTE + s * 1000000 + us < DAY ->
  isoformat (naive (replace_time t h m s us))
  = format_date t ++ "T" ++ format_time (h * HOUR + m * MINUTE + s * 1000000 + us).
Proof.
  intros Hx. unfold replace_time.
  replace (t / DAY * DAY + h * HOUR + m * MINUTE + s * 1000000 + us)
    with (t / DAY * DAY + (h * HOUR + m * MINUTE + s * 1000000 + us)) by lia.
  now apply isoformat_time_of_day.
Qed.

Section GetEvents.
Context {lib : PyLib}.

Lemma format_events_all events :
  Forall (fun event => start event <> None) events ->
  forall acc,
    format_events events acc = Ok (acc ++ map formatted_entry events)%list.
Proof.
  induction 1 as [|event rest Hstart _ IH]; intros acc; cbn.
  - now rewrite app_nil_r.
  - unfold format_event, rbind, formatted_entry at 1.
    destruct (start event) as [field|]; [|contradiction].
    rewrite IH, <- app_assoc. reflexivity.
Qed.

Lemma format_events_missing events :
  Exists (fun event => start event = None) events ->
  forall acc, format_events events acc = Raise (KeyError "'start'").
Proof.
  induction 1 as [event rest Hstart|event rest _ IH]; intros acc; cbn;
    unfold format_event, rbind.
  - now rewrite Hstart.
  - destruct (start event); [apply IH|reflexivity].
Qed.

Lemma get_events_bad_date date w e :
  strptime date "%Y-%m-%d" = Raise e -> get_events date w = (Ok [], w).
Proof.
  intros Hdate. unfold get_events, try_except, bind, lift.
  now rewrite Hdate.
Qed.

Lemma get_events_listed date w t0 :
  strptime date "%Y-%m-%d" = Ok t0 ->
  get_events date w
  = match events_list calendar_id
            (isoformat (naive (replace_time t0 0 0 0 0)) ++ "Z")
            (isoformat (naive (replace_time t0 23 59 59 999999)) ++ "Z") w with
    | (Ok events, w') => (Ok (or_empty (format_events events [])), w')
    | (Raise _, w') => (Ok [], w')
    end.
Proof.
  intros Hdate. unfold get_events, try_except, bind, lift, ret.
  rewrite Hdate.
  destruct (events_list _ _ _ w) as [[events|e] w']; [|reflexivity].
  now destruct (format_events _ _).
Qed.

(** X8: when every event the service lists has a ['start'], [get_events]
    returns one entry per event, in the order listed: the summary or
    ["No Title"], the ['dateTime'] of the start or else its ['date'], and
    the description or the empty string. *)
Theorem get_events_formats_every_event date w t0 events w' :
  strptime date "%Y-%m-%d" = Ok t0 ->
  events_list calendar_id
    (isoformat (naive (replace_time t0 0 0 0 0)) ++ "Z")
    (isoformat (naive (replace_time t0 23 59 59 999999)) ++ "Z") w
  = (Ok events, w') ->
  Forall (fun event => start event <> None) events ->
  get_events date w = (Ok (map formatted_entry events), w')
  /\ List.length (map formatted_entry events) = List.length events.
Proof.
  intros Hdate Hlist Hstart.
  rewrite (get_events_listed _ _ _ Hdate), Hlist.
  rewrite (format_events_all events Hstart []). split; [reflexivity|].
  apply length_map.
Qed.

(** X9: a single listed event without a ['start'] key makes [get_events]
    return the empty list, and [get_events_for_date] then answers that no
    events were found, although the service listed some. *)
Theorem event_without_start_hides_all_events date w t0 events w' :
  strptime date "%Y-%m-%d" = Ok t0 ->
  events_list calendar_id
    (isoformat (naive (replace_time t0 0 0 0 0)) ++ "Z")
    (isoformat (naive (replace_time t0 23 59 59 999999)) ++ "Z") w
  = (Ok events, w') ->
  Exists (fun event => start event = None) events ->
  get_events date w = (Ok [], w')
  /\ get_events_for_date date w = (Ok ("No events found for " ++ date), w').
Proof.
  intros Hdate Hlist Hmissing.
  assert (get_events date w = (Ok [], w')) as Hget.
  { rewrite (get_events_listed _ _ _ Hdate), Hlist.
    now rewrite (format_events_missing events Hmissing []). }
  split; [exact Hget|].
  unfold get_events_for_date, try_except, bind. now rewrite Hget.
Qed.

(** X10: when the service lists at least one event and each has a
    ['start'], [get_events_for_date] shows every one of them, one line each
    and in the order listed, without the limit of eight that
    [check_availability] applies: the summary or ["No Title"], then the
    ['dateTime'] of the start, else its ['date'], else [None]. *)
Theorem get_events_for_date_lists_every_event date w t0 events w' :
  strptime date "%Y-%m-%d" = Ok t0 ->
  events_list calendar_id
    (isoformat (naive (replace_time t0 0 0 0 0)) ++ "Z")
    (isoformat (naive (replace_time t0 23 59 59 999999)) ++ "Z") w
  = (Ok events, w') ->
  Forall (fun event => start event <> None) events ->
  events <> [] ->
  get_events_for_date date w
  = (Ok ("Events for " ++ date ++ ":" ++ String "010" ""
         ++ join (String "010" "")
              (map (fun event => event_line (formatted_entry event)) events)),
     w')
  /\ List.length (map (fun event => event_line (formatted_entry event)) events)
     = List.length events.
Proof.
  intros Hdate Hlist Hstart Hsome. split; [|apply length_map].
  assert (get_events date w = (Ok (map formatted_entry events), w')) as Hget.
  { rewrite (get_events_listed _ _ _ Hdate), Hlist.
    now rewrite (format_events_all events Hstart []). }
  unfold get_events_for_date, try_except, bind. rewrite Hget.
  destruct events as [|event rest]; [contradiction|].
  cbn [map]. rewrite map_map. reflexivity.
Qed.

(** X7: for a date that can be read, [get_available_slots] sends one list
    request for the calendar ['primary'] with the bounds 09:00:00 and
    17:00:00 of that date, and [get_events] one with the bounds 00:00:00 and
    23:59:59.999999; the bounds are the naive times with a ["Z"] appended.
    For a date that cannot be read nothing is sent. *)
Theorem list_requests_sent date dur w :
  match strptime date "%Y-%m-%d" with
  | Ok t0 =>
      requests_after (get_available_slots date dur w)
      = (requests (backend w)
         ++ [ListRequest "primary" (format_date t0 ++ "T09:00:00Z")
                         (format_date t0 ++ "T17:00:00Z")])%list
      /\ requests_after (get_events date w)
         = (requests (backend w)
            ++ [ListRequest "primary" (format_date t0 ++ "T00:00:00Z")
                            (format_date t0 ++ "T23:59:59.999999Z")])%list
  | Raise _ =>
      snd (get_available_slots date dur w) = w /\ snd (get_events date w) = w
  end.
Proof.
  destruct (strptime date "%Y-%m-%d") as [t0|e] eqn:Hdate.
  - rewrite (get_available_slots_listed _ _ _ _ Hdate),
            (get_events_listed _ _ _ Hdate).
    rewrite !isoformat_replace_time by (ticks; lia).
    unfold requests_after, events_list.
    assert (forall a b : string, (a ++ "T" ++ b) ++ "Z" = a ++ "T" ++ b ++ "Z")
      as Hassoc.
    { intros a b. induction a as [|c a IH]; cbn; [reflexivity|].
      cbn in IH. now rewrite IH. }
    rewrite !Hassoc.
    split; destruct (refuses _ _ _); reflexivity.
  - now rewrite (get_available_slots_bad_date _ _ _ _ Hdate),
                (get_events_bad_date _ _ _ Hdate).
Qed.

End GetEvents.

Lemma get_events_formats_every_event_witness :
  let events := [busy_10_to_11; all_day_event] in
  let w := world_of events noon_2024_06_01 in
  let t0 := on_2024_01_10 0 0 in
  let timeMin := isoformat (naive (replace_time t0 0 0 0 0)) ++ "Z" in
  let timeMax := isoformat (naive (replace_time t0 23 59 59 999999)) ++ "Z" in
  let w' := snd (events_list calendar_id timeMin timeMax w) in
  (strptime (PyLib := canonical_lib) "2024-01-10" "%Y-%m-%d" = Ok t0
   /\ events_list calendar_id timeMin timeMax w = (Ok events, w')
   /\ Forall (fun event => start event <> None) events)
  /\ get_events (lib := canonical_lib) "2024-01-10" w
     = (Ok [mkFormattedEvent "Review" (Some "2024-01-10T10:00:00Z") "";
            mkFormattedEvent "Conference" (Some "2024-01-10") ""], w').
Proof.
  intros events w t0 timeMin timeMax w'.
  assert (strptime (PyLib := canonical_lib) "2024-01-10" "%Y-%m-%d" = Ok t0
          /\ events_list calendar_id timeMin timeMax w = (Ok events, w')
          /\ Forall (fun event => start event <> None) events) as Hyp.
  { split; [vm_compute; reflexivity|split; [vm_compute; reflexivity|]].
    repeat constructor; discriminate. }
  split; [exact Hyp|].
  destruct Hyp as (H1 & H2 & H3).
  exact (proj1 (get_events_formats_every_event (lib := canonical_lib)
                  "2024-01-10" w t0 events w' H1 H2 H3)).
Defined.

Lemma event_without_start_hides_all_events_witness :
  let events := [busy_10_to_11; event_without_start] in
  let w := world_of events noon_2024_06_01 in
  let t0 := on_2024_01_10 0 0 in
  let timeMin := isoformat (naive (replace_time t0 0 0 0 0)) ++ "Z" in
  let timeMax := isoformat (naive (replace_time t0 23 59 59 999999)) ++ "Z" in
  let w' := snd (events_list calendar_id timeMin timeMax w) in
  (strptime (PyLib := canonical_lib) "2024-01-10" "%Y-%m-%d" = Ok t0
   /\ events_list calendar_id timeMin timeMax w = (Ok events, w')
   /\ Exists (fun event => start event = None) events)
  /\ get_events (lib := canonical_lib) "2024-01-10" w = (Ok [], w')
  /\ get_events_for_date (lib := canonical_lib) "2024-01-10" w
     = (Ok "No events found for 2024-01-10", w').
Proof.
  intros events w t0 timeMin timeMax w'.
  assert (strptime (PyLib := canonical_lib) "2024-01-10" "%Y-%m-%d" = Ok t0
          /\ events_list calendar_id timeMin timeMax w = (Ok events, w')
          /\ Exists (fun event => start event = None) events) as Hyp.
  { split; [vm_compute; reflexivity|split; [vm_compute; reflexivity|]].
    right. left. reflexivity. }
  split; [exact Hyp|].
  destruct Hyp as (H1 & H2 & H3).
  exact (event_without_start_hides_all_events (lib := canonical_lib)
           "2024-01-10" w t0 events w' H1 H2 H3).
Defined.

Lemma get_events_for_date_lists_every_event_witness :
  let events := [busy_10_to_11; all_day_event] in
  let w := world_of events noon_2024_06_01 in
  let t0 := on_2024_01_10 0 0 in
  let timeMin := isoformat (naive (replace_time t0 0 0 0 0)) ++ "Z" in
  let timeMax := isoformat (naive (replace_time t0 23 59 59 999999)) ++ "Z" in
  let w' := snd (events_list calendar_id timeMin timeMax w) in
  (strptime (PyLib := canonical_lib) "2024-01-10" "%Y-%m-%d" = Ok t0
   /\ events_list calendar_id timeMin timeMax w = (Ok events, w')
   /\ Forall (fun event => start event <> None) events
   /\ events <> [])
  /\ get_events_for_date (lib := canonical_lib) "2024-01-10" w
     = (Ok ("Events for 2024-01-10:" ++ String "010" ""
            ++ "- Review at 2024-01-10T10:00:00Z" ++ String "010" ""
            ++ "- Conference at 2024-01-10"), w').
Proof.
  intros events w t0 timeMin timeMax w'.
  assert (strptime (PyLib := canonical_lib) "2024-01-10" "%Y-%m-%d" = Ok t0
          /\ events_list calendar_id timeMin timeMax w = (Ok events, w')
          /\ Forall (fun event => start event <> None) events
          /\ events <> []) as Hyp.
  { split; [vm_compute; reflexivity|split; [vm_compute; reflexivity|split]].
    - repeat constructor; discriminate.
    - discriminate. }
  split; [exact Hyp|].
  destruct Hyp as (H1 & H2 & H3 & H4).
  exact (proj1 (get_events_for_date_lists_every_event (lib := canonical_lib)
                  "2024-01-10" w t0 events w' H1 H2 H3 H4)).
Defined.

(** * Conversation sessions *)

Lemma key_eqb_eq a b : key_eqb a b = true <-> a = b.
Proof.
  destruct a as [x|], b as [y|]; cbn; try (split; congruence).
  rewrite String.eqb_eq. split; congruence.
Qed.

Lemma key_eqb_refl a : key_eqb a a = true.
Proof. now apply key_eqb_eq. Qed.

Lemma key_eqb_neq a b : a <> b -> key_eqb a b = false.
Proof.
  intros Hneq. destruct (key_eqb a b) eqn:H; [|reflexivity].
  now apply key_eqb_eq in H.
Qed.

Lemma sessions_get_set_same sessions key messages :
  sessions_get (sessions_set sessions key messages) key = Some messages.
Proof.
  induction sessions as [|[k old] rest IH]; cbn.
  - now rewrite key_eqb_refl.
  - destruct (key_eqb key k) eqn:Hk; cbn; rewrite Hk; [reflexivity|exact IH].
Qed.

Lemma sessions_get_set_other sessions key messages other :
  other <> key ->
  sessions_get (sessions_set sessions key messages) other
  = sessions_get sessions other.
Proof.
  intros Hneq. induction sessions as [|[k old] rest IH]; cbn.
  - now rewrite (key_eqb_neq _ _ Hneq).
  - destruct (key_eqb key k) eqn:Hk; cbn.
    + apply key_eqb_eq in Hk. subst k.
      now rewrite (key_eqb_neq _ _ Hneq).
    + now rewrite IH.
Qed.

Lemma sessions_set_keys sessions key messages :
  map fst (sessions_set sessions key messages)
  = match sessions_get sessions key with
    | Some _ => map fst sessions
    | None => (map fst sessions ++ [key])%list
    end.
Proof.
  induction sessions as [|[k old] rest IH]; cbn; [reflexivity|].
  destruct (key_eqb key k) eqn:Hk; cbn; [reflexivity|].
  rewrite IH. now destruct (sessions_get rest key).
Qed.

Lemma sessions_get_None sessions key :
  sessions_get sessions key = None -> ~ In key (map fst sessions).
Proof.
  induction sessions as [|[k old] rest IH]; cbn; [tauto|].
  destruct (key_eqb key k) eqn:Hk; [discriminate|].
  intros Hnone [->|Hin]; [now rewrite key_eqb_refl in Hk|now apply IH].
Qed.

Lemma sessions_set_Forall (P : list BaseMessage -> Prop) sessions key messages :
  Forall (fun entry => P (snd entry)) sessions -> P messages ->
  Forall (fun entry => P (snd entry)) (sessions_set sessions key messages).
Proof.
  intros Hall Hnew. induction Hall as [|[k old] rest Hold Hrest IH]; cbn.
  - repeat constructor. exact Hnew.
  - destruct (key_eqb key k); constructor; cbn; assumption.
Qed.

Lemma sessions_get_Forall (P : list BaseMessage -> Prop) sessions key messages :
  Forall (fun entry => P (snd entry)) sessions ->
  sessions_get sessions key = Some messages -> P messages.
Proof.
  induction 1 as [|[k old] rest Hold _ IH]; cbn; [discriminate|].
  destruct (key_eqb key k); [now intros [= <-]|exact IH].
Qed.

Lemma exchanges_app history message output :
  exchanges history ->
  exchanges (history ++ [HumanMessage message; AIMessage output]).
Proof.
  revert history.
  fix IH 1. intros [|[h|a] [|[h'|a'] rest]]; cbn; try tauto.
  apply IH.
Qed.

Section Sessions.
Variable agent_executor_invoke : string -> list BaseMessage -> io string.

Lemma process_message_body_eq message session_id sessions w :
  process_message_body agent_executor_invoke message session_id sessions w
  = let registered :=
      match sessions_get sessions session_id with
      | None => sessions_set sessions session_id []
      | Some _ => sessions
      end in
    match agent_executor_invoke message (history_of sessions session_id) w with
    | (Ok output, w') =>
        (Ok output,
         sessions_set registered session_id
           (history_of sessions session_id
            ++ [HumanMessage message; AIMessage output])%list, w')
    | (Raise e, w') => (Raise e, registered, w')
    end.
Proof.
  unfold process_message_body, history_of.
  destruct (sessions_get sessions session_id) as [history|] eqn:Hget.
  - now rewrite Hget.
  - now rewrite sessions_get_set_same.
Qed.

(** X13: when the agent answers, [process_message] returns its output and
    appends the message and the output, in this order, to the history of
    that session; the agent was shown the history as it was before, without
    the new message; every other session keeps its history. *)
Theorem process_message_records_exchange message session_id sessions w
    output w' :
  agent_executor_invoke message (history_of sessions session_id) w
  = (Ok output, w') ->
  let out := process_message agent_executor_invoke message session_id
               sessions w in
  fst (fst out) = Ok output
  /\ snd out = w'
  /\ sessions_get (snd (fst out)) session_id
     = Some (history_of sessions session_id
             ++ [HumanMessage message; AIMessage output])%list
  /\ forall other,
       other <> session_id ->
       sessions_get (snd (fst out)) other = sessions_get sessions other.
Proof.
  intros Hinvoke out. unfold out, process_message.
  rewrite process_message_body_eq. cbv zeta. rewrite Hinvoke. cbn.
  split; [reflexivity|split; [reflexivity|split]].
  - apply sessions_get_set_same.
  - intros other Hother. rewrite sessions_get_set_other by assumption.
    destruct (sessions_get sessions session_id);
      [reflexivity|now apply sessions_get_set_other].
Qed.

(** X14: when the agent raises, [process_message] returns the apology with
    the cause and records nothing of the exchange: an existing session
    keeps its history, a session not seen before stays registered with an
    empty history, and every other session is untouched. *)
Theorem process_message_failure_records_nothing message session_id sessions w
    e w' :
  agent_executor_invoke message (history_of sessions session_id) w
  = (Raise e, w') ->
  let out := process_message agent_executor_invoke message session_id
               sessions w in
  fst (fst out)
  = Ok ("I apologize, but I encountered an error: " ++ str e
        ++ ". Please try again.")
  /\ snd out = w'
  /\ sessions_get (snd (fst out)) session_id
     = Some (history_of sessions session_id)
  /\ forall other,
       other <> session_id ->
       sessions_get (snd (fst out)) other = sessions_get sessions other.
Proof.
  intros Hinvoke out. unfold out, process_message.
  rewrite process_message_body_eq. cbv zeta. rewrite Hinvoke. cbn.
  split; [reflexivity|split; [reflexivity|]].
  unfold history_of.
  destruct (sessions_get sessions session_id) as [history|] eqn:Hget.
  - split; [exact Hget|reflexivity].
  - split; [apply sessions_get_set_same|].
    intros other Hother. now apply sessions_get_set_other.
Qed.

(** X15: [process_message] keeps the session dictionary well formed: if
    every history is a sequence of exchanges (a human message followed by
    the answer) and no key occurs twice, the same holds afterwards,
    whatever the agent does. *)
Theorem process_message_keeps_exchanges message session_id sessions w :
  Forall (fun entry => exchanges (snd entry)) sessions ->
  NoDup (map fst sessions) ->
  let sessions' :=
    snd (fst (process_message agent_executor_invoke message session_id
                sessions w)) in
  Forall (fun entry => exchanges (snd entry)) sessions'
  /\ NoDup (map fst sessions').
Proof.
  intros Hall Hkeys sessions'. unfold sessions', process_message.
  rewrite process_message_body_eq. cbv zeta. unfold history_of.
  destruct (sessions_get sessions session_id) as [history|] eqn:Hget.
  - destruct (agent_executor_invoke message history w) as [[output|e] w'];
      cbn; [|split; assumption].
    split.
    + apply sessions_set_Forall; [assumption|].
      apply exchanges_app.
      exact (sessions_get_Forall exchanges _ _ _ Hall Hget).
    + now rewrite sessions_set_keys, Hget.
  - assert (Forall (fun entry => exchanges (snd entry))
                   (sessions_set sessions session_id [])
            /\ NoDup (map fst (sessions_set sessions session_id [])))
      as [Hall' Hkeys'].
    { split; [apply sessions_set_Forall; [assumption|exact I]|].
      rewrite sessions_set_keys, Hget.
      apply NoDup_app; [assumption|repeat constructor; intros []|].
      intros key Hin [<-|[]]. now apply (sessions_get_None _ _ Hget). }
    destruct (agent_executor_invoke message [] w) as [[output|e] w'];
      cbn; [|split; assumption].
    split.
    + apply sessions_set_Forall; [assumption|exact I].
    + now rewrite sessions_set_keys, sessions_get_set_same.
Qed.

Variable none_is_not_a_string : string.

(** X16: for a request whose session identifier is a string, [/chat]
    always answers with a response that carries the same identifier and the
    text of [process_message], and never with status 500, even when the
    agent raises: the failure is in the text. *)
Theorem chat_echoes_session_id message sid sessions w :
  let done := process_message agent_executor_invoke message (Some sid)
                sessions w in
  exists response,
    fst (fst done) = Ok response
    /\ chat agent_executor_invoke none_is_not_a_string
            (mkChatMessage message (Some sid)) sessions w
       = (Responded (mkChatResponse response sid), snd (fst done), snd done).
Proof.
  intros done. unfold chat. cbn [cm_message cm_session_id]. fold done.
  assert (exists response, fst (fst done) = Ok response) as [response Hdone].
  { unfold done, process_message.
    destruct (process_message_body _ _ _ _ _) as [[[output|e] s'] w']; cbn;
      eauto. }
  exists response. split; [exact Hdone|].
  destruct done as [[r s'] w']. cbn in *. now subst r.
Qed.

(** X17: for a request whose session identifier is null, [/chat] answers
    with status 500, because [ChatResponse] refuses [None] for its
    identifier, and this after [process_message] has run: the exchange is
    recorded under the key [None] as for any other session. *)
Theorem chat_null_session_id message sessions w :
  let done := process_message agent_executor_invoke message None sessions w in
  chat agent_executor_invoke none_is_not_a_string
       (mkChatMessage message None) sessions w
  = (HTTPException 500 none_is_not_a_string, snd (fst done), snd done).
Proof.
  intros done. unfold chat. cbn [cm_message cm_session_id]. fold done.
  assert (exists response, fst (fst done) = Ok response) as [response Hdone].
  { unfold done, process_message.
    destruct (process_message_body _ _ _ _ _) as [[[output|e] s'] w']; cbn;
      eauto. }
  destruct done as [[r s'] w']. cbn in *. now subst r.
Qed.

End Sessions.

Lemma process_message_records_exchange_witness :
  let sessions :=
    [(Some "alice", [HumanMessage "hi"; AIMessage "seen 0"]);
     (Some "bob", [])] in
  let w := world_of [] noon_2024_06_01 in
  let out := process_message counting_agent "hello" (Some "alice") sessions w in
  counting_agent "hello" (history_of sessions (Some "alice")) w
  = (Ok "seen 2", w)
  /\ fst (fst out) = Ok "seen 2"
  /\ sessions_get (snd (fst out)) (Some "alice")
     = Some [HumanMessage "hi"; AIMessage "seen 0";
             HumanMessage "hello"; AIMessage "seen 2"]
  /\ sessions_get (snd (fst out)) (Some "bob") = Some [].
Proof.
  intros sessions w out.
  assert (counting_agent "hello" (history_of sessions (Some "alice")) w
          = (Ok "seen 2", w)) as Hinvoke by reflexivity.
  split; [exact Hinvoke|].
  destruct (process_message_records_exchange counting_agent "hello"
              (Some "alice") sessions w "seen 2" w Hinvoke)
    as (Hout & _ & Hhistory & Hothers).
  split; [exact Hout|split; [exact Hhistory|]].
  exact (Hothers (Some "bob") ltac:(discriminate)).
Defined.

Lemma process_message_failure_records_nothing_witness :
  let sessions :=
    [(Some "alice", [HumanMessage "hi"; AIMessage "seen 0"])] in
  let w := world_of [] noon_2024_06_01 in
  let out := process_message counting_agent "crash" (Some "carol") sessions w in
  counting_agent "crash" (history_of sessions (Some "carol")) w
  = (Raise (ValueError "model unavailable"), w)
  /\ fst (fst out)
     = Ok ("I apologize, but I encountered an error: model unavailable"
           ++ ". Please try again.")
  /\ sessions_get sessions (Some "carol") = None
  /\ sessions_get (snd (fst out)) (Some "carol") = Some [].
Proof.
  intros sessions w out.
  assert (counting_agent "crash" (history_of sessions (Some "carol")) w
          = (Raise (ValueError "model unavailable"), w)) as Hinvoke
    by reflexivity.
  split; [exact Hinvoke|].
  destruct (process_message_failure_records_nothing counting_agent "crash"
              (Some "carol") sessions w _ w Hinvoke)
    as (Hout & _ & Hhistory & _).
  split; [exact Hout|split; [reflexivity|exact Hhistory]].
Defined.

Lemma process_message_keeps_exchanges_witness :
  let sessions :=
    [(Some "alice", [HumanMessage "hi"; AIMessage "seen 0"]);
     (None, [])] in
  let w := world_of [] noon_2024_06_01 in
  let sessions' :=
    snd (fst (process_message counting_agent "hello" (Some "dave")
                sessions w)) in
  (Forall (fun entry => exchanges (snd entry)) sessions
   /\ NoDup (map fst sessions))
  /\ Forall (fun entry => exchanges (snd entry)) sessions'
  /\ NoDup (map fst sessions').
Proof.
  intros sessions w sessions'.
  assert (Forall (fun entry => exchanges (snd entry)) sessions
          /\ NoDup (map fst sessions)) as Hyp.
  { split.
    - repeat constructor.
    - repeat constructor; cbn; intuition discriminate. }
  split; [exact Hyp|].
  destruct Hyp as [H1 H2].
  exact (process_message_keeps_exchanges counting_agent "hello" (Some "dave")
           sessions w H1 H2).
Defined.

(** * The lines [check_availability] can show *)

Section Lines.
Context {lib : PyLib}.
Import Spec.

Lemma generate_from_shift base n close d step cur :
  generate_from n (base + close) d step (base + cur)
  = map (shift base) (generate_from n close d step cur).
Proof.
  revert cur. induction n as [|n IH]; intros cur; cbn; [reflexivity|].
  rewrite !gtb_negb_leb.
  assert ((base + cur + d <=? base + close) = (cur + d <=? close)) as ->.
  { destruct (cur + d <=? close) eqn:H;
      [apply Z.leb_le in H; apply Z.leb_le|
       apply Z.leb_gt in H; apply Z.leb_gt]; lia. }
  destruct (cur + d <=? close); cbn; [|reflexivity].
  unfold shift at 1. cbn. f_equal; [f_equal; lia|].
  replace (base + cur + step) with (base + (cur + step)) by lia.
  apply IH.
Qed.

Lemma strftime_HM_shift q x : strftime_HM (q * DAY + x) = strftime_HM x.
Proof.
  unfold strftime_HM.
  assert ((q * DAY + x) mod DAY = x mod DAY) as ->.
  { rewrite Z.add_comm. apply Z.mod_add. ticks. lia. }
  assert ((q * DAY + x) mod HOUR = x mod HOUR) as ->; [|reflexivity].
  replace (q * DAY + x) with (x + (q * 24) * HOUR) by (ticks; lia).
  apply Z.mod_add. ticks. lia.
Qed.

Lemma slot_line_shift q c :
  slot_line (slot_of_interval (shift (q * DAY) c))
  = slot_line (slot_of_interval c).
Proof.
  unfold slot_line, slot_of_interval, slot_dict, shift.
  cbn [slot_start_time slot_end_time istart iend].
  now rewrite !strftime_HM_shift.
Qed.

Lemma lines_of_shifted q (f : Interval -> bool) l :
  map slot_line (map slot_of_interval (filter f (map (shift (q * DAY)) l)))
  = map (fun c => slot_line (slot_of_interval c))
        (filter (fun c => f (shift (q * DAY) c)) l).
Proof.
  induction l as [|c rest IH]; cbn [map filter]; [reflexivity|].
  destruct (f (shift (q * DAY) c)); cbn [map]; [|exact IH].
  rewrite slot_line_shift. now f_equal.
Qed.

Lemma NoDup_map_filter {A B} (g : A -> B) (f : A -> bool) l :
  NoDup (map g l) -> NoDup (map g (filter f l)).
Proof.
  induction l as [|a l IH]; cbn; [constructor|].
  intros Hnd. inversion Hnd as [|? ? Hnotin Hrest]; subst.
  destruct (f a); cbn; [|now apply IH].
  constructor; [|now apply IH].
  intros Hin. apply Hnotin.
  apply in_map_iff in Hin as (x & Hx & Hin).
  apply filter_In in Hin as [Hin _].
  apply in_map_iff. eauto.
Qed.

(** X6: whatever the date, the events and the service, the slots
    [get_available_slots] finds for 60 minutes, and so the lines
    [check_availability] shows, are taken in order from the same fifteen:
    09:00 - 10:00, 09:30 - 10:30, and so on every half hour up to
    16:00 - 17:00; no line occurs twice. *)
Theorem slot_lines_are_fixed date w :
  map (fun c => slot_line (slot_of_interval c)) day_candidates
  = ["09:00 - 10:00"; "09:30 - 10:30"; "10:00 - 11:00"; "10:30 - 11:30";
     "11:00 - 12:00"; "11:30 - 12:30"; "12:00 - 13:00"; "12:30 - 13:30";
     "13:00 - 14:00"; "13:30 - 14:30"; "14:00 - 15:00"; "14:30 - 15:30";
     "15:00 - 16:00"; "15:30 - 16:30"; "16:00 - 17:00"]
  /\ (exists keep,
         map slot_line (or_empty (fst (get_available_slots date 60 w)))
         = map (fun c => slot_line (slot_of_interval c))
               (filter keep day_candidates))
  /\ NoDup (map slot_line (or_empty (fst (get_available_slots date 60 w)))).
Proof.
  assert (map (fun c => slot_line (slot_of_interval c)) day_candidates
          = ["09:00 - 10:00"; "09:30 - 10:30"; "10:00 - 11:00"; "10:30 - 11:30";
             "11:00 - 12:00"; "11:30 - 12:30"; "12:00 - 13:00"; "12:30 - 13:30";
             "13:00 - 14:00"; "13:30 - 14:30"; "14:00 - 15:00"; "14:30 - 15:30";
             "15:00 - 16:00"; "15:30 - 16:30"; "16:00 - 17:00"]) as Hlines
    by (vm_compute; reflexivity).
  assert (exists keep,
             map slot_line (or_empty (fst (get_available_slots date 60 w)))
             = map (fun c => slot_line (slot_of_interval c))
                   (filter keep day_candidates)) as [keep Hkeep].
  { destruct (strptime date "%Y-%m-%d") as [t0|e] eqn:Hdate.
    2:{ rewrite (get_available_slots_bad_date _ _ _ _ Hdate).
        exists (fun _ => false). vm_compute. reflexivity. }
    rewrite (get_available_slots_listed _ _ _ _ Hdate).
    destruct (events_list _ _ _ w) as [[events|e] w'].
    2:{ exists (fun _ => false). vm_compute. reflexivity. }
    cbn [fst or_empty].
    destruct (busy_intervals events) as [busy|e] eqn:Hbusy.
    2:{ rewrite (slots_while_unread events e 60 _
                   (Z.to_nat ((replace_time t0 17 0 0 0 - 60 * MINUTE
                               - replace_time t0 9 0 0 0)
                              / (30 * MINUTE) + 1)) Hbusy) by lia.
        exists (fun _ => false). vm_compute. reflexivity. }
    pose proof (strptime_range _ _ _ Hdate) as Ht0.
    destruct (working_window_bounds t0 Ht0) as (Ho & Hc & Hlo & Hhi).
    rewrite <- Ho, <- Hc.
    rewrite (slots_while_window events busy 60 _ Hbusy ltac:(lia) Hlo Hhi).
    set (base := t0 / DAY * DAY).
    assert (generate (working_window t0) (60 * MINUTE) (30 * MINUTE)
            = map (shift base) day_candidates) as Hgen.
    { unfold generate, day_candidates, opening, closing, working_window.
      cbn [wdate wopen wclose].
      replace (0 * DAY + 9 * HOUR) with (9 * HOUR) by lia.
      replace (0 * DAY + 17 * HOUR) with (17 * HOUR) by lia.
      fold base.
      replace (base + 17 * HOUR - 60 * MINUTE - (base + 9 * HOUR))
        with (17 * HOUR - 60 * MINUTE - 9 * HOUR) by lia.
      apply generate_from_shift. }
    exists (fun c => free busy (shift base c)).
    unfold available_slots. rewrite Hgen.
    apply lines_of_shifted. }
  split; [exact Hlines|split; [exists keep; exact Hkeep|]].
  rewrite Hkeep. apply NoDup_map_filter. rewrite Hlines.
  repeat constructor; cbn; intuition discriminate.
Qed.

End Lines.

(** * Booking, then asking again *)

Section BookThenCheck.
Context {lib : PyLib}.
Import Spec.

(** The half-hour starts of a working day print as seventeen different
    [HH:MM] texts. *)
Lemma candidate_start_line_inj k k' :
  (k <= 16)%nat -> (k' <= 16)%nat ->
  strftime_HM (9 * HOUR + Z.of_nat k * (30 * MINUTE))
  = strftime_HM (9 * HOUR + Z.of_nat k' * (30 * MINUTE)) ->
  k = k'.
Proof.
  intros Hk Hk'.
  do 17 (destruct k as [|k];
         [do 17 (destruct k' as [|k'];
                 [first [reflexivity|vm_compute; discriminate]|]); lia|]).
  lia.
Qed.

Lemma generate_In w d c :
  In c (generate w d (30 * MINUTE)) ->
  exists k,
    c = mkInterval (opening w + Z.of_nat k * (30 * MINUTE))
                   (opening w + Z.of_nat k * (30 * MINUTE) + d)
    /\ opening w + Z.of_nat k * (30 * MINUTE) + d <= closing w.
Proof.
  intros Hin. apply In_nth_error in Hin as [k Hk]. exists k.
  rewrite generate_nth in Hk by (ticks; lia).
  destruct (_ <=? closing w) eqn:Hle; [|discriminate].
  apply Z.leb_le in Hle. injection Hk as <-. now split.
Qed.

(** Two candidates of the same working day with the same dictionary are the
    same interval. *)
Lemma slot_of_interval_inj t0 d c c' :
  0 <= d ->
  In c (generate (working_window t0) d (30 * MINUTE)) ->
  In c' (generate (working_window t0) d (30 * MINUTE)) ->
  slot_of_interval c = slot_of_interval c' ->
  c = c'.
Proof.
  intros Hd Hc Hc' Heq.
  apply generate_In in Hc as (k & -> & Hk).
  apply generate_In in Hc' as (k' & -> & Hk').
  unfold opening, closing, working_window in *.
  cbn [wdate wopen wclose] in *.
  assert (k <= 16)%nat by (ticks; lia).
  assert (k' <= 16)%nat by (ticks; lia).
  apply (f_equal slot_start_time) in Heq.
  unfold slot_of_interval, slot_dict in Heq.
  cbn [slot_start_time istart] in Heq.
  replace (t0 / DAY * DAY + 9 * HOUR + Z.of_nat k * (30 * MINUTE))
    with (t0 / DAY * DAY + (9 * HOUR + Z.of_nat k * (30 * MINUTE)))
    in Heq by lia.
  replace (t0 / DAY * DAY + 9 * HOUR + Z.of_nat k' * (30 * MINUTE))
    with (t0 / DAY * DAY + (9 * HOUR + Z.of_nat k' * (30 * MINUTE)))
    in Heq by lia.
  rewrite !strftime_HM_shift in Heq.
  now rewrite (candidate_start_line_inj k k') by assumption.
Qed.

(** X12: once [create_event] has succeeded, the calendar ends with the event
    it built; and when the service lists that event and the library reads
    back the two ISO texts [create_event] wrote, the slots
    [get_available_slots] returns are the dictionaries of the candidates the
    loop kept, none of which overlaps the booked interval, and the
    dictionary of no candidate of that day that overlaps the booked interval
    is among them. *)
Theorem created_event_blocks_its_interval
    title start_datetime dur desc w r w1 st en date dur' t0 events w2 :
  create_event title start_datetime dur desc w = (Ok r, w1) ->
  success r = true ->
  fromisoformat start_datetime = Ok st ->
  datetime_add st (dur * MINUTE) = Ok en ->
  let created := stored_event (backend w) (event_body title desc st en) in
  let booked := mkInterval (wall st) (wall en) in
  event_interval created = Ok booked ->
  strptime date "%Y-%m-%d" = Ok t0 ->
  events_list calendar_id
    (isoformat (naive (replace_time t0 9 0 0 0)) ++ "Z")
    (isoformat (naive (replace_time t0 17 0 0 0)) ++ "Z") w1
  = (Ok events, w2) ->
  In created events ->
  0 <= dur' ->
  let kept :=
    match busy_intervals events with
    | Ok busy => available_slots (working_window t0) (dur' * MINUTE) busy
    | Raise _ => []
    end in
  calendar (backend w1) = (calendar (backend w) ++ [created])%list
  /\ wall en = wall st + dur * MINUTE
  /\ get_available_slots date dur' w1 = (Ok (map slot_of_interval kept), w2)
  /\ Forall (fun c => overlaps c booked = false) kept
  /\ forall c,
       In c (generate (working_window t0) (dur' * MINUTE) (30 * MINUTE)) ->
       overlaps c booked = true ->
       ~ In (slot_of_interval c) (map slot_of_interval kept).
Proof.
  intros Hcreate Hsuccess Hst Hen created booked Hread Hdate Hlist Hin Hdur' kept.
  assert (Forall (fun c => overlaps c booked = false) kept) as Hkept.
  { unfold kept. destruct (busy_intervals events) as [busy|e] eqn:Hbusy;
      [|constructor].
    destruct (busy_intervals_In events busy created Hbusy Hin)
      as (b & Hb & Hinb).
    assert (b = booked) by congruence. subst b.
    apply Forall_forall. intros c Hc'.
    unfold available_slots in Hc'. apply filter_In in Hc' as [_ Hfree].
    unfold free in Hfree. rewrite forallb_forall in Hfree.
    specialize (Hfree booked Hinb). now destruct (overlaps c booked). }
  split; [|split; [|split; [|split; [exact Hkept|]]]].
  - revert Hcreate.
    unfold create_event, try_except, bind, lift, ret. rewrite Hst.
    destruct (timedelta dur) as [delta|e] eqn:Htd.
    2:{ intros [= <- _]. discriminate. }
    apply timedelta_value in Htd. subst delta. rewrite Hen.
    unfold events_insert.
    destruct (refuses _ _ _) as [e|].
    + intros [= <- _]. discriminate.
    + intros [= _ <-]. reflexivity.
  - unfold datetime_add, rbind in Hen.
    destruct (dt_add _ _) as [t|] eqn:Hadd; [|discriminate].
    injection Hen as <-. cbn. now apply dt_add_value in Hadd.
  - rewrite (get_available_slots_listed _ _ _ _ Hdate), Hlist.
    unfold kept. destruct (busy_intervals events) as [busy|e] eqn:Hbusy.
    + pose proof (strptime_range _ _ _ Hdate) as Ht0.
      destruct (working_window_bounds t0 Ht0) as (Ho & Hc & Hlo & Hhi).
      rewrite <- Ho, <- Hc.
      now rewrite (slots_while_window events busy dur' _ Hbusy Hdur' Hlo Hhi).
    + now rewrite (slots_while_unread events e dur' _
                     (Z.to_nat ((replace_time t0 17 0 0 0 - dur' * MINUTE
                                 - replace_time t0 9 0 0 0) / (30 * MINUTE) + 1))
                     Hbusy) by lia.
  - intros c Hc Hoverlap Hshown.
    apply in_map_iff in Hshown as (c' & Heq & Hc').
    assert (overlaps c' booked = false) as Hfree
      by (rewrite Forall_forall in Hkept; now apply Hkept).
    assert (In c' (generate (working_window t0) (dur' * MINUTE) (30 * MINUTE)))
      as Hgen.
    { unfold kept in Hc'. destruct (busy_intervals events); [|contradiction].
      unfold available_slots in Hc'. now apply filter_In in Hc' as [? _]. }
    assert (c' = c)
      by (apply (slot_of_interval_inj t0 (dur' * MINUTE)); [ticks; lia|..];
          assumption).
    congruence.
Qed.

End BookThenCheck.

Lemma created_event_blocks_its_interval_witness :
  let w := world_of [] noon_2024_06_01 in
  let out := create_event (lib := canonical_lib) "Standup"
               "2024-01-10T10:00:00" 30 "" w in
  let w1 := snd out in
  let st := naive (on_2024_01_10 10 0) in
  let en := naive (on_2024_01_10 10 30) in
  let created := stored_event (backend w) (event_body "Standup" "" st en) in
  let t0 := on_2024_01_10 0 0 in
  let timeMin := isoformat (naive (replace_time t0 9 0 0 0)) ++ "Z" in
  let timeMax := isoformat (naive (replace_time t0 17 0 0 0)) ++ "Z" in
  let w2 := snd (events_list calendar_id timeMin timeMax w1) in
  let ten_to_eleven :=
    Spec.mkInterval (on_2024_01_10 10 0) (on_2024_01_10 11 0) in
  (out = (Ok (mkCreateResult true (Some "evt0")
                (Some "https://www.google.com/calendar/event?eid=evt0")
                "Event 'Standup' created successfully"), w1)
   /\ fromisoformat (PyLib := canonical_lib) "2024-01-10T10:00:00" = Ok st
   /\ datetime_add st (30 * MINUTE) = Ok en
   /\ event_interval (lib := canonical_lib) created
      = Ok (Spec.mkInterval (wall st) (wall en))
   /\ strptime (PyLib := canonical_lib) "2024-01-10" "%Y-%m-%d" = Ok t0
   /\ events_list calendar_id timeMin timeMax w1 = (Ok [created], w2)
   /\ In created [created]
   /\ 0 <= 60
   /\ In ten_to_eleven
         (Spec.generate (working_window t0) (60 * MINUTE) (30 * MINUTE))
   /\ Spec.overlaps ten_to_eleven (Spec.mkInterval (wall st) (wall en)) = true)
  /\ map slot_line
       (or_empty (fst (get_available_slots (lib := canonical_lib)
                         "2024-01-10" 60 w1)))
     = ["09:00 - 10:00"; "10:30 - 11:30"; "11:00 - 12:00"; "11:30 - 12:30";
        "12:00 - 13:00"; "12:30 - 13:30"; "13:00 - 14:00"; "13:30 - 14:30";
        "14:00 - 15:00"; "14:30 - 15:30"; "15:00 - 16:00"; "15:30 - 16:30";
        "16:00 - 17:00"]
  /\ ~ In (mkSlot "10:00" "11:00" "2024-01-10T10:00:00")
          (or_empty (fst (get_available_slots (lib := canonical_lib)
                            "2024-01-10" 60 w1))).
Proof.
  intros w out w1 st en created t0 timeMin timeMax w2 ten_to_eleven.
  assert (out = (Ok (mkCreateResult true (Some "evt0")
                       (Some "https://www.google.com/calendar/event?eid=evt0")
                       "Event 'Standup' created successfully"), w1)
          /\ fromisoformat (PyLib := canonical_lib) "2024-01-10T10:00:00" = Ok st
          /\ datetime_add st (30 * MINUTE) = Ok en
          /\ event_interval (lib := canonical_lib) created
             = Ok (Spec.mkInterval (wall st) (wall en))
          /\ strptime (PyLib := canonical_lib) "2024-01-10" "%Y-%m-%d" = Ok t0
          /\ events_list calendar_id timeMin timeMax w1 = (Ok [created], w2)
          /\ In created [created]
          /\ 0 <= 60
          /\ In ten_to_eleven
                (Spec.generate (working_window t0) (60 * MINUTE) (30 * MINUTE))
          /\ Spec.overlaps ten_to_eleven (Spec.mkInterval (wall st) (wall en))
             = true) as Hyp.
  { split; [vm_compute; reflexivity|].
    split; [vm_compute; reflexivity|].
    split; [vm_compute; reflexivity|].
    split; [vm_compute; reflexivity|].
    split; [vm_compute; reflexivity|].
    split; [vm_compute; reflexivity|].
    split; [now left|].
    split; [vm_compute; congruence|].
    split; [vm_compute; tauto|vm_compute; reflexivity]. }
  split; [exact Hyp|].
  split; [vm_compute; reflexivity|].
  destruct Hyp as (H1 & H2 & H3 & H4 & H5 & H6 & H7 & H8 & H9 & H10).
  destruct (created_event_blocks_its_interval (lib := canonical_lib)
              "Standup" "2024-01-10T10:00:00" 30 "" w _ w1 st en
              "2024-01-10" 60 t0 [created] w2
              H1 eq_refl H2 H3 H4 H5 H6 H7 H8)
    as (_ & _ & Hslots & _ & Habsent).
  rewrite Hslots. exact (Habsent ten_to_eleven H9 H10).
Defined.
